(** * PS5 drift tester: the telemetry path of [drift_gui_pygame.py]

    A shallow embedding of the main loop of [drift_gui_pygame.py]: joystick
    discovery ([find_joystick]), the keyboard handlers that adjust the
    deadzone and the debug flag, polling of axes, buttons and hats with the
    guarded index reads, drift detection and [norm_trigger].

    Drawing calls are not modelled; what they are given (which glow is
    drawn, the width factor of a trigger bar) is kept as the fields of the
    value a poll produces. *)

From Stdlib Require Import List Bool Arith ZArith QArith Qabs Lqa Lia.
From Stdlib Require Import Floats Uint63.
From Stdlib Require String DecimalString.
Import ListNotations.
Import String.StringSyntax.
Delimit Scope string_scope with string.

(** ** Numbers

    The script computes on Python floats.  Its arithmetic is written once,
    over an interface of the operations the script uses, and instantiated
    twice: with binary64, the arithmetic of the interpreter, and with
    exact rationals, for the statements that rest on comparisons and on
    the choice of a branch and so read the same in both. *)

Class PyFloat (num : Type) : Type := {
  lit : Q -> num;                 (* a decimal literal of the source *)
  fadd : num -> num -> num;       (* a + b *)
  fsub : num -> num -> num;       (* a - b *)
  fdiv : num -> num -> num;       (* a / b *)
  fabs : num -> num;              (* abs(a) *)
  flt : num -> num -> bool;       (* a < b *)
  fle : num -> num -> bool        (* a <= b *)
}.

Declare Scope py_scope.
Delimit Scope py_scope with py.
Infix "+" := fadd : py_scope.
Infix "-" := fsub : py_scope.
Infix "/" := fdiv : py_scope.
Infix "<?" := flt : py_scope.
Infix "<=?" := fle : py_scope.
(* Python writes [a > b] and [a >= b]; they are [b < a] and [b <= a]. *)
Notation "a >? b" := (flt b a) (at level 70, no associativity) : py_scope.
Notation "a >=? b" := (fle b a) (at level 70, no associativity) : py_scope.

Definition Qlt_bool (a b : Q) : bool := negb (Qle_bool b a).

#[export] Instance PyFloat_Q : PyFloat Q := {
  lit q := q;
  fadd := Qplus;
  fsub := Qminus;
  fdiv := Qdiv;
  fabs := Qabs;
  flt := Qlt_bool;
  fle := Qle_bool
}.

(** A decimal literal is read as the binary64 nearest to it: numerator and
    denominator are small integers, exact in binary64, and the division is
    correctly rounded. *)
Definition float_of_Q (q : Q) : float :=
  let n := PrimFloat.of_uint63 (Uint63.of_Z (Z.abs (Qnum q))) in
  let d := PrimFloat.of_uint63 (Uint63.of_Z (Zpos (Qden q))) in
  let m := PrimFloat.div n d in
  if (Qnum q <? 0)%Z then PrimFloat.opp m else m.

#[export] Instance PyFloat_binary64 : PyFloat float := {
  lit := float_of_Q;
  fadd := PrimFloat.add;
  fsub := PrimFloat.sub;
  fdiv := PrimFloat.div;
  fabs := PrimFloat.abs;
  flt := PrimFloat.ltb;
  fle := PrimFloat.leb
}.

(** ** Python values used by the script *)

(** The outcome of an expression that may raise [IndexError]. *)
Inductive result (A : Type) : Type :=
| Ok (a : A)
| IndexError.
Arguments Ok {A} a.
Arguments IndexError {A}.

(** [l[i]] for a non-negative index. *)
Definition py_index {A : Type} (l : list A) (i : nat) : result A :=
  match nth_error l i with
  | Some a => Ok a
  | None => IndexError
  end.

Section Numeric.
Context {num : Type} `{PyFloat num}.
Local Open Scope py_scope.

(** A button state where a number is expected: [False] is 0, [True] is 1. *)
Definition of_bool (b : bool) : num := if b then lit 1 else lit 0.

(** [max(a, b)] and [min(a, b)]: the first argument is kept unless the
    second is strictly greater (smaller). *)
Definition py_max (a b : num) : num := if b >? a then b else a.
Definition py_min (a b : num) : num := if b <? a then b else a.

(** Line 19. *)
Definition DEADZONE : num := lit 0.06.

(** Lines 258-264. *)
Definition norm_trigger (v : num) : num :=
  if (v >=? lit (-1.0)) && (v <=? lit 1.0) then
    if v <? lit (-0.2) then (v + lit 1.0) / lit 2.0
    else v
  else lit 0.0.

(** The drift test of lines 225-226,
    [abs(x) > deadzone or abs(y) > deadzone]. *)
Definition drifting (x y deadzone : num) : bool :=
  (fabs x >? deadzone) || (fabs y >? deadzone).

(** The two deadzone adjustments, lines 172 and 174. *)
Definition decrease (deadzone : num) : num :=
  py_max (lit 0.0) (deadzone - lit 0.01).
Definition increase (deadzone : num) : num :=
  py_min (lit 0.5) (deadzone + lit 0.01).

End Numeric.

(** ** Errors and state *)

Definition bind_result {A B : Type} (c : result A) (k : A -> result B)
  : result B :=
  match c with
  | Ok a => k a
  | IndexError => IndexError
  end.

Notation "x <~ c ;; k" := (bind_result c (fun x => k))
  (at level 61, c at next level, right associativity).

Section Engine.
Context {num : Type} `{PyFloat num}.
Local Open Scope py_scope.

(** *** The hardware, as pygame shows it *)

(** A joystick: what [get_axis], [get_button] and [get_hat] report when
    it is polled. *)
Record Device : Type := {
  dev_axes : list num;
  dev_buttons : list bool;
  dev_hats : list (Z * Z)
}.

Definition get_numaxes (j : Device) : nat := length (dev_axes j).
Definition get_numbuttons (j : Device) : nat := length (dev_buttons j).
Definition get_numhats (j : Device) : nat := length (dev_hats j).
Definition get_axis (j : Device) (i : nat) : num :=
  nth i (dev_axes j) (lit 0.0).
Definition get_button (j : Device) (i : nat) : bool :=
  nth i (dev_buttons j) false.
Definition get_hat (j : Device) (i : nat) : Z * Z :=
  nth i (dev_hats j) (0, 0)%Z.

(** *** The globals of the script *)

Record Engine : Type := {
  joystick : option Device;      (* line 77 *)
  deadzone : num;                (* line 123 *)
  show_debug : bool;             (* line 124 *)
  running : bool                 (* line 159 *)
}.

Definition with_joystick (j : option Device) (st : Engine) : Engine :=
  {| joystick := j; deadzone := deadzone st;
     show_debug := show_debug st; running := running st |}.
Definition with_deadzone (d : num) (st : Engine) : Engine :=
  {| joystick := joystick st; deadzone := d;
     show_debug := show_debug st; running := running st |}.
Definition with_show_debug (b : bool) (st : Engine) : Engine :=
  {| joystick := joystick st; deadzone := deadzone st;
     show_debug := b; running := running st |}.
Definition with_running (b : bool) (st : Engine) : Engine :=
  {| joystick := joystick st; deadzone := deadzone st;
     show_debug := show_debug st; running := b |}.

(** Lines 123, 124 and 159, with what line 87 found. *)
Definition initial (j : option Device) : Engine :=
  {| joystick := j; deadzone := DEADZONE;
     show_debug := true; running := true |}.

(** Code that reads and writes the globals and may raise. *)
Definition M (A : Type) : Type := Engine -> result (A * Engine).

Definition ret {A : Type} (a : A) : M A := fun st => Ok (a, st).
Definition bind {A B : Type} (c : M A) (k : A -> M B) : M B :=
  fun st =>
    match c st with
    | Ok (a, st') => k a st'
    | IndexError => IndexError
    end.
Definition get {A : Type} (proj : Engine -> A) : M A :=
  fun st => Ok (proj st, st).
Definition put (upd : Engine -> Engine) : M unit :=
  fun st => Ok (tt, upd st).
Definition lift {A : Type} (c : result A) : M A :=
  fun st =>
    match c with
    | Ok a => Ok (a, st)
    | IndexError => IndexError
    end.

End Engine.

Arguments Device num : clear implicits.
Arguments Engine num : clear implicits.
Arguments M num A : clear implicits.

Notation "x <- c ;; k" := (bind c (fun x => k))
  (at level 61, c at next level, right associativity).
Notation "c ;;; k" := (bind c (fun _ => k))
  (at level 61, right associativity).

(** ** The main loop *)

(** Lines 129-134 and 137-150. *)
Definition AXIS_LX : nat := 0.
Definition AXIS_LY : nat := 1.
Definition AXIS_RX : nat := 2.
Definition AXIS_RY : nat := 3.
Definition AXIS_L2 : nat := 4.
Definition AXIS_R2 : nat := 5.

Definition BTN_X : nat := 0.
Definition BTN_CIRCLE : nat := 1.
Definition BTN_SQUARE : nat := 2.
Definition BTN_TRIANGLE : nat := 3.
Definition BTN_L1 : nat := 4.
Definition BTN_R1 : nat := 5.
Definition BTN_L2 : nat := 6.
Definition BTN_R2 : nat := 7.
Definition BTN_SHARE : nat := 8.
Definition BTN_OPTIONS : nat := 9.
Definition BTN_L_STICK : nat := 10.
Definition BTN_R_STICK : nat := 11.
Definition BTN_PS : nat := 12.
Definition BTN_TOUCH : nat := 13.

(** The keys and events the loop tells apart. *)
Inductive Key : Type := K_d | K_UP | K_DOWN | K_v | K_other.

Inductive Event : Type :=
| QUIT
| JOYDEVICEADDED
| JOYDEVICEREMOVED
| KEYDOWN (key : Key)
| OtherEvent.

Section Loop.
Context {num : Type} `{PyFloat num}.
Local Open Scope py_scope.

(** What one poll hands to the drawing code. *)
Record Frame : Type := {
  lx : num; ly : num; rx : num; ry : num;
  drifting_left : bool;
  drifting_right : bool;
  glow_cross : bool;
  glow_circle : bool;
  glow_square : bool;
  glow_triangle : bool;
  glow_touchpad : bool;
  glow_ps : bool;
  glow_dpad : bool;
  l2_val : num; r2_val : num;
  l2n : num; r2n : num
}.

(** What a pass of the loop body draws: the "No controller detected"
    line, or the telemetry with, when [show_debug] is set, the counts of
    line 290. *)
Inductive Screen : Type :=
| NoController
| Telemetry (f : Frame) (debug : option (nat * nat * nat)).

(** Lines 78-85; [connected] is what pygame enumerates,
    [get_count()] its length and [Joystick(0)] its first element. *)
Definition find_joystick (connected : list (Device num)) : M num bool :=
  match connected with
  | [] => put (with_joystick None) ;;; ret false
  | j :: _ => put (with_joystick (Some j)) ;;; ret true
  end.

(** Lines 168-182.  The vibration test of [K_v] talks to the rumble
    motors and waits; it touches none of the globals. *)
Definition handle_key (key : Key) : M num unit :=
  match key with
  | K_d => b <- get show_debug ;; put (with_show_debug (negb b))
  | K_UP => d <- get deadzone ;; put (with_deadzone (decrease d))
  | K_DOWN => d <- get deadzone ;; put (with_deadzone (increase d))
  | K_v => ret tt
  | K_other => ret tt
  end.

(** Lines 162-182, one event. *)
Definition handle_event (connected : list (Device num)) (ev : Event)
  : M num unit :=
  match ev with
  | QUIT => put (with_running false)
  | JOYDEVICEADDED | JOYDEVICEREMOVED =>
      find_joystick connected ;;; ret tt
  | KEYDOWN key => handle_key key
  | OtherEvent => ret tt
  end.

(** Lines 161-182, [for ev in pygame.event.get()]. *)
Fixpoint handle_events (connected : list (Device num)) (evs : list Event)
  : M num unit :=
  match evs with
  | [] => ret tt
  | ev :: evs' =>
      handle_event connected ev ;;; handle_events connected evs'
  end.

(** Lines 198-200: the three comprehensions, with their
    [if joystick else []]. *)
Definition sample (joystick : option (Device num))
  : list num * list bool * list (Z * Z) :=
  match joystick with
  | Some j =>
      (map (get_axis j) (seq 0 (get_numaxes j)),
       map (get_button j) (seq 0 (get_numbuttons j)),
       map (get_hat j) (seq 0 (get_numhats j)))
  | None => ([], [], [])
  end.

(** [axes[i] if len(axes) > i else 0.0], lines 203-206. *)
Definition axis_or_zero (axes : list num) (i : nat) : result num :=
  if (i <? length axes)%nat then py_index axes i else Ok (lit 0.0).

(** The test of [highlight_if_button] and of line 244,
    [len(buttons) > index and buttons[index]]. *)
Definition highlight_if_button (buttons : list bool) (index : nat)
  : result bool :=
  if (index <? length buttons)%nat then py_index buttons index
  else Ok false.

(** Lines 248-251: whether the d-pad glow is drawn. *)
Definition highlight_dpad (hats : list (Z * Z)) : result bool :=
  if (0 <? length hats)%nat then
    h <~ py_index hats 0 ;;
    let '(hatx, haty) := h in
    Ok (negb (hatx =? 0)%Z || negb (haty =? 0)%Z)
  else Ok false.

(** Lines 254-255:
    [axes[a] if len(axes) > a else (buttons[b] if len(buttons) > b else 0.0)]. *)
Definition trigger_value (axes : list num) (buttons : list bool)
    (a b : nat) : result num :=
  if (a <? length axes)%nat then py_index axes a
  else if (b <? length buttons)%nat then
    p <~ py_index buttons b ;; Ok (of_bool p)
  else Ok (lit 0.0).

(** Lines 203-267, for the deadzone in force. *)
Definition normalize (deadzone : num) (axes : list num)
    (buttons : list bool) (hats : list (Z * Z)) : result Frame :=
  lx <~ axis_or_zero axes AXIS_LX ;;
  ly <~ axis_or_zero axes AXIS_LY ;;
  rx <~ axis_or_zero axes AXIS_RX ;;
  ry <~ axis_or_zero axes AXIS_RY ;;
  let drifting_left := drifting lx ly deadzone in
  let drifting_right := drifting rx ry deadzone in
  cross <~ highlight_if_button buttons BTN_X ;;
  circle <~ highlight_if_button buttons BTN_CIRCLE ;;
  square <~ highlight_if_button buttons BTN_SQUARE ;;
  triangle <~ highlight_if_button buttons BTN_TRIANGLE ;;
  touchpad <~ highlight_if_button buttons BTN_TOUCH ;;
  ps <~ highlight_if_button buttons BTN_PS ;;
  dpad <~ highlight_dpad hats ;;
  l2_val <~ trigger_value axes buttons AXIS_L2 BTN_L2 ;;
  r2_val <~ trigger_value axes buttons AXIS_R2 BTN_R2 ;;
  Ok {| lx := lx; ly := ly; rx := rx; ry := ry;
        drifting_left := drifting_left;
        drifting_right := drifting_right;
        glow_cross := cross; glow_circle := circle;
        glow_square := square; glow_triangle := triangle;
        glow_touchpad := touchpad; glow_ps := ps;
        glow_dpad := dpad;
        l2_val := l2_val; r2_val := r2_val;
        l2n := norm_trigger l2_val; r2n := norm_trigger r2_val |}.

(** Lines 192-297: the body of the loop after the events. *)
Definition poll : M num Screen :=
  j <- get joystick ;;
  match j with
  | None => ret NoController
  | Some _ =>
      let '(axes, buttons, hats) := sample j in
      d <- get deadzone ;;
      f <- lift (normalize d axes buttons hats) ;;
      dbg <- get show_debug ;;
      ret (Telemetry f
             (if dbg
              then Some (length axes, length buttons, length hats)
              else None))
  end.

(** One pass of [while running]. *)
Definition tick (connected : list (Device num)) (evs : list Event)
  : M num Screen :=
  handle_events connected evs ;;; poll.

(** The counts the open device reports, none open counting as zero. *)
Definition capabilities (joystick : option (Device num))
  : nat * nat * nat :=
  let '(axes, buttons, hats) := sample joystick in
  (length axes, length buttons, length hats).

End Loop.

Arguments Frame num : clear implicits.
Arguments Screen num : clear implicits.

(** ** What the terminal and the loop as a whole do *)

(** A count or an index as [print] writes it. *)
Definition decimal (n : nat) : String.string :=
  DecimalString.NilEmpty.string_of_uint (Nat.to_uint n).

(** Lines 94-107: the lines [print_mapping_info] writes, in order.
    [print(a, b)] writes its arguments with one space between them. *)
Definition print_mapping_info {num : Type} (joystick : option (Device num))
  : list String.string :=
  match joystick with
  | None => []
  | Some j =>
      ["----- Controller mapping info -----"%string;
       String.append "Axes (count): " (decimal (get_numaxes j))]
      ++ map (fun i => String.append " axis " (decimal i))
           (seq 0 (get_numaxes j))
      ++ [String.append "Buttons (count): " (decimal (get_numbuttons j))]
      ++ map (fun i => String.append " button " (decimal i))
           (seq 0 (get_numbuttons j))
      ++ [String.append "Hats (d-pad) count: " (decimal (get_numhats j))]
      ++ map (fun i => String.append " hat " (decimal i))
           (seq 0 (get_numhats j))
      ++ ["-----------------------------------"%string]
  end.

Definition is_quit (ev : Event) : bool :=
  match ev with QUIT => true | _ => false end.

Definition is_hotplug (ev : Event) : bool :=
  match ev with JOYDEVICEADDED | JOYDEVICEREMOVED => true | _ => false end.

Definition is_keydown (key : Key) (ev : Event) : bool :=
  match ev, key with
  | KEYDOWN K_d, K_d | KEYDOWN K_UP, K_UP | KEYDOWN K_DOWN, K_DOWN
  | KEYDOWN K_v, K_v | KEYDOWN K_other, K_other => true
  | _, _ => false
  end.

Section MainLoop.
Context {num : Type} `{PyFloat num}.

(** Lines 160-303, [while running]: one element of [inputs] for each time
    the loop condition is reached, holding what is connected and the
    events pending then.  [running] is tested only there; the passes made
    are returned as the screens drawn. *)
Fixpoint main_loop (inputs : list (list (Device num) * list Event))
  : M num (list (Screen num)) :=
  match inputs with
  | [] => ret []
  | (connected, evs) :: rest =>
      r <- get running ;;
      if r then
        scr <- tick connected evs ;;
        scrs <- main_loop rest ;;
        ret (scr :: scrs)
      else ret []
  end.

(** The inputs up to and with the first one that holds a [QUIT]. *)
Fixpoint until_quit (inputs : list (list (Device num) * list Event))
  : list (list (Device num) * list Event) :=
  match inputs with
  | [] => []
  | (connected, evs) :: rest =>
      if existsb is_quit evs then [(connected, evs)]
      else (connected, evs) :: until_quit rest
  end.

(** The deadzone after the keys of [evs], in their order. *)
Definition adjust_deadzone (evs : list Event) (d : num) : num :=
  fold_left
    (fun d ev =>
       match ev with
       | KEYDOWN K_UP => decrease d
       | KEYDOWN K_DOWN => increase d
       | _ => d
       end)
    evs d.

End MainLoop.

(** ** Binary64 values, exactly *)

(** The rational a binary64 value stands for; none for NaN and the
    infinities. *)
Definition float_value (f : float) : option Q :=
  match Prim2SF f with
  | S754_zero _ => Some 0
  | S754_finite s m e =>
      Some ((if s then -1 else 1) * inject_Z (Zpos m) * 2 ^ e)
  | S754_infinity _ | S754_nan => None
  end.

(** [b] stands for [a + c] to within 2^-55. *)
Definition step_within (a b : float) (c : Q) : bool :=
  match float_value a, float_value b with
  | Some qa, Some qb => Qle_bool (Qabs (qb - qa - c)) (1 # 2 ^ 55)
  | _, _ => false
  end.

Definition mem_float (x : float) (l : list float) : bool :=
  existsb (PrimFloat.Leibniz.eqb x) l.

(** The deadzones the two keys lead to from those of [frontier], added to
    [seen] round after round until a round brings nothing new. *)
Fixpoint explore (fuel : nat) (seen frontier : list float) : list float :=
  match fuel with
  | O => seen
  | S fuel' =>
      let next :=
        fold_left
          (fun acc d => if mem_float d (seen ++ acc) then acc
                        else acc ++ [d])
          (flat_map (fun d => [increase d; decrease d]) frontier) [] in
      match next with
      | [] => seen
      | _ :: _ => explore fuel' (seen ++ next) next
      end
  end.

(** The binary64 deadzones that key presses lead to from the deadzone of
    line 19. *)
Definition reachable_deadzones : list float :=
  explore 200 [DEADZONE] [DEADZONE].

(** ** The text column *)

(** Line 18. *)
Definition WINDOW_HEIGHT : Z := 480.

(** What a line of the text column of lines 282-297 shows; the formatted
    numbers are left out. *)
Inductive HudItem : Type :=
| LeftStickText
| RightStickText
| DeadzoneText
| VibrationText
| DebugHintText
| CountsText
| AxisText (i : nat)
| ButtonText (i : nat)
| HatText (i : nat).

(** [draw_text(..., info_x, y); y += step] for each item in turn: the
    items with the [y] they are drawn at. *)
Fixpoint place (items : list (HudItem * Z)) (y : Z) : list (HudItem * Z) :=
  match items with
  | [] => []
  | (item, step) :: rest => (item, y) :: place rest (y + step)
  end.

(** Lines 292-297: the three [enumerate] loops, the buttons over
    [buttons[:16]]. *)
Definition debug_items {A B C : Type} (axes : list A) (buttons : list B)
    (hats : list C) : list HudItem :=
  map AxisText (seq 0 (length axes))
  ++ map ButtonText (seq 0 (length (firstn 16 buttons)))
  ++ map HatText (seq 0 (length hats)).

(** Lines 282-297. *)
Definition hud_lines {A B C : Type} (show_debug : bool) (axes : list A)
    (buttons : list B) (hats : list C) : list (HudItem * Z) :=
  place
    ([(LeftStickText, 24); (RightStickText, 24); (DeadzoneText, 24);
      (VibrationText, 24); (DebugHintText, 20)]
     ++ (if show_debug
         then (CountsText, 22)
              :: map (fun item => (item, 18))
                   (debug_items axes buttons hats)
         else []))%Z
    150%Z.

(** The device and deadzone of the end-to-end scenario: six axes, fourteen
    buttons, none pressed, one hat at rest, and the deadzone of line 19. *)
Section Scenario.
Context {num : Type} `{PyFloat num}.

Definition scenario_device : Device num :=
  {| dev_axes := map lit [0.02; -0.01; 0.9; 0.0; -0.5; 0.8];
     dev_buttons := repeat false 14;
     dev_hats := [(0, 0)%Z] |}.

Definition scenario_engine : Engine num := initial (Some scenario_device).

End Scenario.

(** The events that are commands on the configuration: the debug toggle
    and the two deadzone keys. *)
Definition config_command (ev : Event) : bool :=
  match ev with
  | KEYDOWN K_d | KEYDOWN K_UP | KEYDOWN K_DOWN => true
  | _ => false
  end.

(** * Properties *)

(** ** Reading lists *)

Lemma py_index_nth {A : Type} (l : list A) (i : nat) (d : A) :
  (i < length l)%nat -> py_index l i = Ok (nth i l d).
Proof.
  intros Hi. unfold py_index.
  destruct (nth_error l i) as [a|] eqn:E.
  - now rewrite (nth_error_nth l i d E).
  - apply nth_error_None in E. lia.
Qed.

Lemma py_index_out_of_range {A : Type} (l : list A) (i : nat) :
  (length l <= i)%nat -> py_index l i = IndexError.
Proof.
  intros Hi. unfold py_index.
  now rewrite (proj2 (nth_error_None l i) Hi).
Qed.

Lemma map_nth_seq {A : Type} (l : list A) (d : A) :
  map (fun i => nth i l d) (seq 0 (length l)) = l.
Proof.
  induction l as [|a l IH]; simpl; [reflexivity|].
  f_equal. rewrite <- seq_shift, map_map. exact IH.
Qed.

Section ReadingFacts.
Context {num : Type} `{PyFloat num}.

Lemma axis_or_zero_nth (axes : list num) (i : nat) :
  axis_or_zero axes i = Ok (nth i axes (lit 0.0)).
Proof.
  unfold axis_or_zero. destruct (Nat.ltb_spec i (length axes)) as [Hi|Hi].
  - now apply py_index_nth.
  - now rewrite nth_overflow.
Qed.

Lemma highlight_if_button_nth (buttons : list bool) (i : nat) :
  highlight_if_button buttons i = Ok (nth i buttons false).
Proof.
  unfold highlight_if_button.
  destruct (Nat.ltb_spec i (length buttons)) as [Hi|Hi].
  - now apply py_index_nth.
  - now rewrite nth_overflow.
Qed.

Lemma highlight_dpad_nth (hats : list (Z * Z)) :
  highlight_dpad hats =
  Ok (negb (fst (nth 0 hats (0, 0)%Z) =? 0)%Z
      || negb (snd (nth 0 hats (0, 0)%Z) =? 0)%Z).
Proof.
  unfold highlight_dpad. destruct hats as [|[hatx haty] hats]; reflexivity.
Qed.

Lemma trigger_value_nth (axes : list num) (buttons : list bool)
    (a b : nat) :
  trigger_value (num:=num) axes buttons a b =
  Ok (if (a <? length axes)%nat then nth a axes (lit 0.0)
      else if (b <? length buttons)%nat
           then of_bool (nth b buttons false)
           else lit 0.0).
Proof.
  unfold trigger_value.
  destruct (Nat.ltb_spec a (length axes)) as [Ha|Ha].
  - now apply py_index_nth.
  - destruct (Nat.ltb_spec b (length buttons)) as [Hb|Hb];
      [|reflexivity].
    now rewrite (py_index_nth buttons b false Hb).
Qed.

(** The guarded reads never raise: a poll of any three lists is the
    frame of their entries at the fixed indices, absent ones replaced. *)
Lemma normalize_Ok (d : num) (axes : list num) (buttons : list bool)
    (hats : list (Z * Z)) :
  normalize d axes buttons hats =
  let axis i := nth i axes (lit 0.0) in
  let button i := nth i buttons false in
  let hat := nth 0 hats (0, 0)%Z in
  let trigger a b :=
    if (a <? length axes)%nat then axis a
    else if (b <? length buttons)%nat then of_bool (button b)
         else lit 0.0 in
  Ok {| lx := axis AXIS_LX; ly := axis AXIS_LY;
        rx := axis AXIS_RX; ry := axis AXIS_RY;
        drifting_left := drifting (axis AXIS_LX) (axis AXIS_LY) d;
        drifting_right := drifting (axis AXIS_RX) (axis AXIS_RY) d;
        glow_cross := button BTN_X;
        glow_circle := button BTN_CIRCLE;
        glow_square := button BTN_SQUARE;
        glow_triangle := button BTN_TRIANGLE;
        glow_touchpad := button BTN_TOUCH;
        glow_ps := button BTN_PS;
        glow_dpad := negb (fst hat =? 0)%Z || negb (snd hat =? 0)%Z;
        l2_val := trigger AXIS_L2 BTN_L2;
        r2_val := trigger AXIS_R2 BTN_R2;
        l2n := norm_trigger (trigger AXIS_L2 BTN_L2);
        r2n := norm_trigger (trigger AXIS_R2 BTN_R2) |}.
Proof.
  unfold normalize.
  rewrite !axis_or_zero_nth, !highlight_if_button_nth,
    highlight_dpad_nth, !trigger_value_nth.
  reflexivity.
Qed.

Lemma sample_Some (j : Device num) :
  sample (Some j) = (dev_axes j, dev_buttons j, dev_hats j).
Proof.
  unfold sample, get_numaxes, get_numbuttons, get_numhats.
  unfold get_axis, get_button, get_hat.
  now rewrite !map_nth_seq.
Qed.

(** *** The loop body on the globals *)

Lemma find_joystick_Ok (connected : list (Device num))
    (st : Engine num) :
  find_joystick connected st =
  Ok (match connected with [] => false | _ :: _ => true end,
      with_joystick (hd_error connected) st).
Proof. destruct connected; reflexivity. Qed.

Lemma handle_event_Ok (connected : list (Device num)) (ev : Event)
    (st : Engine num) :
  handle_event connected ev st =
  Ok (tt,
      match ev with
      | QUIT => with_running false st
      | JOYDEVICEADDED | JOYDEVICEREMOVED =>
          with_joystick (hd_error connected) st
      | KEYDOWN K_d => with_show_debug (negb (show_debug st)) st
      | KEYDOWN K_UP => with_deadzone (decrease (deadzone st)) st
      | KEYDOWN K_DOWN => with_deadzone (increase (deadzone st)) st
      | KEYDOWN K_v | KEYDOWN K_other | OtherEvent => st
      end).
Proof.
  destruct ev as [| | |key|]; try reflexivity.
  - destruct connected; reflexivity.
  - destruct connected; reflexivity.
  - destruct key; reflexivity.
Qed.

Lemma handle_events_Ok (connected : list (Device num))
    (evs : list Event) (st : Engine num) :
  exists st', handle_events connected evs st = Ok (tt, st').
Proof.
  revert st. induction evs as [|ev evs IH]; intros st; simpl.
  - now exists st.
  - unfold bind. rewrite handle_event_Ok. apply IH.
Qed.

Lemma handle_events_config (connected : list (Device num))
    (evs : list Event) (st st' : Engine num) :
  forallb (fun ev => negb (config_command ev)) evs = true ->
  handle_events connected evs st = Ok (tt, st') ->
  deadzone st' = deadzone st /\ show_debug st' = show_debug st.
Proof.
  revert st. induction evs as [|ev evs IH]; intros st Hno Hrun.
  - simpl in Hrun. injection Hrun as <-. now split.
  - simpl in Hno. apply andb_prop in Hno as [Hev Hno].
    simpl in Hrun. unfold bind in Hrun. rewrite handle_event_Ok in Hrun.
    destruct (IH _ Hno Hrun) as [Hd Hs]. rewrite Hd, Hs.
    destruct ev as [| | |[]|]; try discriminate Hev; now split.
Qed.

Lemma poll_None (st : Engine num) :
  joystick st = None -> poll st = Ok (NoController, st).
Proof. intros Hj. unfold poll, bind, get. now rewrite Hj. Qed.

Lemma poll_Some (st : Engine num) (j : Device num) :
  joystick st = Some j ->
  exists f,
    normalize (deadzone st) (dev_axes j) (dev_buttons j) (dev_hats j)
    = Ok f
    /\ poll st =
       Ok (Telemetry f
             (if show_debug st
              then Some (get_numaxes j, get_numbuttons j, get_numhats j)
              else None), st).
Proof.
  intros Hj. unfold poll, bind, get. rewrite Hj, sample_Some.
  rewrite normalize_Ok. cbv zeta. eexists. split; [reflexivity|].
  reflexivity.
Qed.

Lemma poll_Ok (st : Engine num) : exists scr, poll st = Ok (scr, st).
Proof.
  destruct (joystick st) as [j|] eqn:Hj.
  - destruct (poll_Some st j Hj) as (f & _ & Hp). eauto.
  - exists NoController. now apply poll_None.
Qed.

End ReadingFacts.

(** ** Literals in binary64 *)

#[local] Set Warnings "-inexact-float".

(** [float_of_Q] reads the constants of the script and of the scenarios
    as the float parser does. *)
Lemma float_of_Q_literals :
  float_of_Q (-1.0) = (-1.0)%float /\ float_of_Q 1.0 = 1.0%float
  /\ float_of_Q (-0.2) = (-0.2)%float /\ float_of_Q 2.0 = 2.0%float
  /\ float_of_Q 0.0 = 0.0%float /\ float_of_Q 0.06 = 0.06%float
  /\ float_of_Q 0.01 = 0.01%float /\ float_of_Q 0.5 = 0.5%float
  /\ float_of_Q 0.49 = 0.49%float /\ float_of_Q (-0.3) = (-0.3)%float
  /\ float_of_Q 0.35 = 0.35%float /\ float_of_Q 0.7 = 0.7%float
  /\ float_of_Q 1.5 = 1.5%float /\ float_of_Q 0.02 = 0.02%float
  /\ float_of_Q (-0.01) = (-0.01)%float /\ float_of_Q 0.9 = 0.9%float
  /\ float_of_Q (-0.5) = (-0.5)%float /\ float_of_Q 0.8 = 0.8%float
  /\ float_of_Q 0.25 = 0.25%float /\ float_of_Q (-0.1) = (-0.1)%float.
Proof. repeat split; vm_compute; reflexivity. Qed.

(** ** Comparisons on rationals *)

Lemma Qlt_bool_iff (a b : Q) : Qlt_bool a b = true <-> a < b.
Proof.
  unfold Qlt_bool. rewrite negb_true_iff.
  destruct (Qle_bool b a) eqn:E.
  - apply Qle_bool_iff in E. split; [discriminate|]. intros Hlt.
    exfalso. exact (Qle_not_lt _ _ E Hlt).
  - split; [|reflexivity]. intros _. apply Qnot_le_lt. intros Hle.
    apply Qle_bool_iff in Hle. congruence.
Qed.

Lemma Qlt_bool_false_iff (a b : Q) : Qlt_bool a b = false <-> b <= a.
Proof.
  unfold Qlt_bool. rewrite negb_false_iff. apply Qle_bool_iff.
Qed.

Lemma Qle_bool_false_iff (a b : Q) : Qle_bool a b = false <-> b < a.
Proof.
  rewrite <- Qlt_bool_iff. unfold Qlt_bool.
  now rewrite negb_true_iff.
Qed.

(** Every comparison of the goal decided both ways, the outcome kept as an
    order fact among the hypotheses. *)
Ltac compare_cases :=
  repeat match goal with
  | |- context [Qle_bool ?a ?b] =>
      let E := fresh "E" in
      destruct (Qle_bool a b) eqn:E;
      [apply Qle_bool_iff in E | apply Qle_bool_false_iff in E]
  | |- context [Qlt_bool ?a ?b] =>
      let E := fresh "E" in
      destruct (Qlt_bool a b) eqn:E;
      [apply Qlt_bool_iff in E | apply Qlt_bool_false_iff in E]
  end.

Ltac unfold_py :=
  cbn [lit fadd fsub fdiv fabs flt fle PyFloat_Q] in *.

(** ** [norm_trigger] on rationals *)

Lemma signed_half (v : Q) : (v + 1.0) / 2.0 == (v + 1) * (1 # 2).
Proof.
  unfold Qdiv. change (/ 2.0) with (10 # 20). lra.
Qed.

Lemma norm_trigger_signed (v : Q) :
  -1 <= v -> v < -0.2 -> norm_trigger v = (v + 1.0) / 2.0.
Proof.
  intros H1 H2. unfold norm_trigger. unfold_py.
  compare_cases; cbn [andb]; try reflexivity; lra.
Qed.

Lemma norm_trigger_unsigned (v : Q) :
  -0.2 <= v -> v <= 1 -> norm_trigger v = v.
Proof.
  intros H1 H2. unfold norm_trigger. unfold_py.
  compare_cases; cbn [andb]; try reflexivity; lra.
Qed.

Lemma norm_trigger_outside (v : Q) :
  v < -1 \/ 1 < v -> norm_trigger v = 0.0.
Proof.
  intros H. unfold norm_trigger. unfold_py.
  compare_cases; cbn [andb]; try reflexivity; lra.
Qed.

Lemma norm_trigger_range (v : Q) : -0.2 <= norm_trigger v <= 1.
Proof.
  destruct (Qlt_le_dec v (-1)) as [Hlo|Hlo].
  { rewrite norm_trigger_outside by now left. lra. }
  destruct (Qlt_le_dec 1 v) as [Hhi|Hhi].
  { rewrite norm_trigger_outside by now right. lra. }
  destruct (Qlt_le_dec v (-0.2)) as [Hs|Hs].
  - rewrite norm_trigger_signed, signed_half by assumption. lra.
  - rewrite norm_trigger_unsigned by assumption. lra.
Qed.

Lemma trigger_value_missing {num : Type} `{PyFloat num}
    (axes : list num) (buttons : list bool) (a b : nat) :
  (length axes <= a)%nat -> (length buttons <= b)%nat ->
  trigger_value axes buttons a b = Ok (lit 0.0).
Proof.
  intros Ha Hb. rewrite trigger_value_nth.
  apply Nat.ltb_ge in Ha, Hb. now rewrite Ha, Hb.
Qed.

(** C1.  [norm_trigger] is the dual-range rule: an input of [-1, 1] below
    -0.2 gives [(v + 1.0) / 2.0], an input of [-1, 1] from -0.2 up is
    returned as it is, any other input gives 0.0.  The five sample values
    -1.0, -0.3, 0.0, 0.7 and 1.5 give 0.0, 0.35, 0.0, 0.7 and 0.0, on the
    rationals and in binary64 alike. *)
Theorem norm_trigger_dual_range :
  (forall v : Q, -1 <= v <= 1 -> v < -0.2 ->
     norm_trigger v = (v + 1.0) / 2.0)
  /\ (forall v : Q, -1 <= v <= 1 -> -0.2 <= v -> norm_trigger v = v)
  /\ (forall v : Q, ~ (-1 <= v <= 1) -> norm_trigger v = 0.0)
  /\ (norm_trigger (-1.0) == 0.0
      /\ norm_trigger (-0.3) == 0.35
      /\ norm_trigger 0.0 == 0.0
      /\ norm_trigger 0.7 == 0.7
      /\ norm_trigger 1.5 == 0.0)
  /\ (norm_trigger (lit (-1.0) : float) = lit 0.0
      /\ norm_trigger (lit (-0.3) : float) = lit 0.35
      /\ norm_trigger (lit 0.0 : float) = lit 0.0
      /\ norm_trigger (lit 0.7 : float) = lit 0.7
      /\ norm_trigger (lit 1.5 : float) = lit 0.0).
Proof.
  split; [|split; [|split; [|split]]].
  - intros v [Hlo _] Hs. now apply norm_trigger_signed.
  - intros v [_ Hhi] Hs. now apply norm_trigger_unsigned.
  - intros v Hout. apply norm_trigger_outside.
    destruct (Qlt_le_dec v (-1)) as [Hlo|Hlo]; [now left|].
    destruct (Qlt_le_dec 1 v) as [Hhi|Hhi]; [now right|].
    exfalso. apply Hout. now split.
  - repeat split; reflexivity.
  - repeat split; vm_compute; reflexivity.
Qed.

Lemma norm_trigger_dual_range_witness :
  norm_trigger (-0.5) = (-0.5 + 1.0) / 2.0
  /\ norm_trigger 0.25 = 0.25
  /\ norm_trigger 3 = 0.0.
Proof.
  destruct norm_trigger_dual_range as (Hs & Hu & Ho & _).
  split; [|split].
  - apply (Hs (-0.5)); [split|]; unfold Qle, Qlt; simpl; lia.
  - apply (Hu 0.25); [split|]; unfold Qle; simpl; lia.
  - apply (Ho 3). intros [_ Hhi]. revert Hhi. unfold Qle; simpl; lia.
Defined.

(** C9.  Every output of [norm_trigger] lies in [-0.2, 1.0]; -0.2 itself
    is an output, that of the input -0.2, and every input of [-0.2, 0) is
    returned as it is, not raised to 0. *)
Theorem norm_trigger_output_interval :
  (forall v : Q, -0.2 <= norm_trigger v <= 1.0)
  /\ norm_trigger (-0.2) = -0.2
  /\ norm_trigger 1.0 = 1.0
  /\ (forall v : Q, -0.2 <= v -> v < 0 -> norm_trigger v = v).
Proof.
  split; [|split; [|split]].
  - intros v. destruct (norm_trigger_range v). split; lra.
  - reflexivity.
  - reflexivity.
  - intros v Hlo Hneg. apply norm_trigger_unsigned; lra.
Qed.

Lemma norm_trigger_output_interval_witness :
  norm_trigger (-0.1) = -0.1.
Proof.
  destruct norm_trigger_output_interval as (_ & _ & _ & Hid).
  apply (Hid (-0.1)); unfold Qle, Qlt; simpl; lia.
Defined.

(** C10.  [norm_trigger] is idempotent. *)
Theorem norm_trigger_idempotent (v : Q) :
  norm_trigger (norm_trigger v) = norm_trigger v.
Proof.
  destruct (Qlt_le_dec v (-1)) as [Hlo|Hlo].
  { rewrite (norm_trigger_outside v) by now left. reflexivity. }
  destruct (Qlt_le_dec 1 v) as [Hhi|Hhi].
  { rewrite (norm_trigger_outside v) by now right. reflexivity. }
  destruct (Qlt_le_dec v (-0.2)) as [Hs|Hs].
  - rewrite (norm_trigger_signed v) by assumption.
    apply norm_trigger_unsigned; rewrite signed_half; lra.
  - rewrite (norm_trigger_unsigned v) by assumption.
    now apply norm_trigger_unsigned.
Qed.

(** C2.  The normalised trigger value is not always in [0, 1]: the input
    -0.1 passes the test of line 259, fails that of line 260 and is
    returned as it is by the branch of line 263, the one commented
    [already 0..1]; the output is -0.1, below 0, on the rationals and in
    binary64. *)
Lemma norm_trigger_below_zero :
  norm_trigger (-0.1) = -0.1
  /\ ~ (0 <= norm_trigger (-0.1) <= 1)
  /\ norm_trigger (lit (-0.1) : float) = lit (-0.1)
  /\ flt (norm_trigger (lit (-0.1) : float)) (lit 0.0) = true.
Proof.
  split; [reflexivity|split; [|split]].
  - intros [Hlo _]. revert Hlo. vm_compute. intros Hlo. now apply Hlo.
  - vm_compute. reflexivity.
  - vm_compute. reflexivity.
Qed.

(** ** Drift detection *)

Lemma Qabs_above (x d : Q) : d < Qabs x <-> x < - d \/ d < x.
Proof.
  destruct (Qlt_le_dec x 0) as [Hneg|Hpos].
  - rewrite (Qabs_neg x) by lra. split; [intros; left; lra|].
    intros [Hl|Hr]; lra.
  - rewrite (Qabs_pos x) by assumption. split; [intros; now right|].
    intros [Hl|Hr]; lra.
Qed.

Lemma drifting_true_iff (x y d : Q) :
  drifting x y d = true <-> d < Qabs x \/ d < Qabs y.
Proof.
  unfold drifting. unfold_py.
  now rewrite orb_true_iff, !Qlt_bool_iff.
Qed.

(** C3.  The drift test is true exactly when [|x| > d] or [|y| > d], the
    inequalities strict, for every deadzone (those of [0, 0.5] among
    them); the flags of a poll are this test on the stick values and the
    deadzone of that same poll, nothing of an earlier one. *)
Theorem drifting_threshold :
  (forall x y d : Q, drifting x y d = true <-> d < Qabs x \/ d < Qabs y)
  /\ (forall x y d : Q,
        drifting x y d = true <->
        (x < - d \/ d < x) \/ (y < - d \/ d < y))
  /\ (forall d : Q, 0 <= d ->
        drifting d d d = false /\ drifting (- d) (- d) d = false)
  /\ (forall (st st' : Engine Q) (f : Frame Q) dbg,
        poll st = Ok (Telemetry f dbg, st') ->
        drifting_left f = drifting (lx f) (ly f) (deadzone st)
        /\ drifting_right f = drifting (rx f) (ry f) (deadzone st)).
Proof.
  split; [|split; [|split]].
  - exact drifting_true_iff.
  - intros x y d. now rewrite drifting_true_iff, !Qabs_above.
  - intros d Hd. split; apply not_true_is_false; intros Ht;
      apply drifting_true_iff in Ht; rewrite !Qabs_above in Ht;
      destruct Ht as [[Ht|Ht]|[Ht|Ht]]; lra.
  - intros st st' f dbg Hp.
    destruct (joystick st) as [j|] eqn:Hj.
    + destruct (poll_Some st j Hj) as (f' & Hn & Hp').
      rewrite Hp' in Hp. injection Hp as <- _.
      rewrite normalize_Ok in Hn. cbv zeta in Hn.
      injection Hn as <-. now split.
    + rewrite (poll_None st Hj) in Hp. discriminate Hp.
Qed.

Lemma drifting_threshold_witness :
  drifting (num:=Q) 0.06 0.06 0.06 = false
  /\ exists f : Frame Q,
       poll scenario_engine
       = Ok (Telemetry f (Some (6, 14, 1)%nat), scenario_engine)
       /\ drifting_right f = drifting (rx f) (ry f) 0.06.
Proof.
  destruct drifting_threshold as (_ & _ & Hedge & Hpoll).
  split.
  - refine (proj1 (Hedge 0.06 _)). unfold Qle; simpl; lia.
  - eexists. split; [vm_compute; reflexivity|].
    refine (proj2 (Hpoll scenario_engine scenario_engine _ _ _)).
    vm_compute; reflexivity.
Defined.

(** ** The deadzone *)

Lemma increase_step (d : Q) : d + 0.01 < 0.5 -> increase d = d + 0.01.
Proof.
  intros Hd. unfold increase, py_min. unfold_py.
  compare_cases; [reflexivity|lra].
Qed.

Lemma increase_clamped (d : Q) : 0.5 <= d + 0.01 -> increase d = 0.5.
Proof.
  intros Hd. unfold increase, py_min. unfold_py.
  compare_cases; [lra|reflexivity].
Qed.

Lemma decrease_step (d : Q) : 0 < d - 0.01 -> decrease d = d - 0.01.
Proof.
  intros Hd. unfold decrease, py_max. unfold_py.
  compare_cases; [reflexivity|lra].
Qed.

Lemma decrease_clamped (d : Q) : d - 0.01 <= 0 -> decrease d = 0.0.
Proof.
  intros Hd. unfold decrease, py_max. unfold_py.
  compare_cases; [lra|reflexivity].
Qed.

Lemma increase_range (d : Q) : 0 <= d -> 0 <= increase d <= 0.5.
Proof.
  intros Hd. destruct (Qlt_le_dec (d + 0.01) 0.5) as [Hs|Hc].
  - rewrite increase_step by assumption. lra.
  - rewrite increase_clamped by assumption. lra.
Qed.

Lemma decrease_range (d : Q) : d <= 0.5 -> 0 <= decrease d <= 0.5.
Proof.
  intros Hd. destruct (Qlt_le_dec 0 (d - 0.01)) as [Hs|Hc].
  - rewrite decrease_step by assumption. lra.
  - rewrite decrease_clamped by assumption. lra.
Qed.

(** Once at a bound the deadzone stays there, whatever the arithmetic. *)
Lemma iter_saturated {A : Type} (f : A -> A) (a top : A) :
  f a = top -> f top = top -> forall n, Nat.iter (S n) f a = top.
Proof.
  intros Hfirst Hfix. induction n as [|n IH]; [exact Hfirst|].
  change (f (Nat.iter (S n) f a) = top). now rewrite IH.
Qed.

(** ** The configuration across a pass of the loop *)

(** C8.  A poll (sampling, normalisation, drift detection) returns with
    every global as it found it, so the deadzone and the debug flag too,
    and it never raises; an event changes the deadzone only if it is the
    up or the down key and the debug flag only if it is the [d] key; a
    pass whose events hold none of these three keys ends with both as they
    were. *)
Theorem config_frame (num : Type) (P : PyFloat num) :
  (forall st : Engine num, exists scr, poll st = Ok (scr, st))
  /\ (forall connected ev (st : Engine num),
        exists st',
          handle_event connected ev st = Ok (tt, st')
          /\ (deadzone st' = deadzone st
              \/ ev = KEYDOWN K_UP \/ ev = KEYDOWN K_DOWN)
          /\ (show_debug st' = show_debug st \/ ev = KEYDOWN K_d))
  /\ (forall connected evs (st : Engine num),
        forallb (fun ev => negb (config_command ev)) evs = true ->
        exists scr st',
          tick connected evs st = Ok (scr, st')
          /\ deadzone st' = deadzone st
          /\ show_debug st' = show_debug st).
Proof.
  repeat apply conj.
  - exact poll_Ok.
  - intros connected ev st. eexists. split; [apply handle_event_Ok|].
    destruct ev as [| | |[]|]; cbn; auto.
  - intros connected evs st Hno.
    destruct (handle_events_Ok connected evs st) as (st' & Hev).
    destruct (poll_Ok st') as (scr & Hp).
    exists scr, st'. unfold tick, bind. rewrite Hev, Hp.
    split; [reflexivity|]. now apply (handle_events_config connected evs).
Qed.

Lemma config_frame_witness :
  exists scr st',
    tick [scenario_device] [JOYDEVICEADDED; KEYDOWN K_v; OtherEvent]
      (initial (num:=Q) None) = Ok (scr, st')
    /\ deadzone st' = DEADZONE /\ show_debug st' = true.
Proof.
  destruct (config_frame Q PyFloat_Q) as (_ & _ & Htick).
  apply (Htick [scenario_device] [JOYDEVICEADDED; KEYDOWN K_v; OtherEvent]
           (initial None)).
  reflexivity.
Defined.

(** ** Entries that are not there *)

(** C4.  An axis, button or hat read at an index the list does not have
    gives the default of its channel: 0.0 for a stick axis, [false] for a
    button and for the d-pad, and for a trigger the button of the trigger
    when there is one, 0.0 otherwise.  No read of the poll raises, whatever
    the three lists, although the bare [l[i]] does at such an index. *)
Theorem missing_index_safety (num : Type) (P : PyFloat num)
    (d : num) (axes : list num) (buttons : list bool)
    (hats : list (Z * Z)) :
  (forall i, (length axes <= i)%nat ->
     py_index axes i = IndexError /\ axis_or_zero axes i = Ok (lit 0.0))
  /\ (forall i, (length buttons <= i)%nat ->
        py_index buttons i = IndexError
        /\ highlight_if_button buttons i = Ok false)
  /\ (forall a b, (length axes <= a)%nat -> (length buttons <= b)%nat ->
        trigger_value axes buttons a b = Ok (lit 0.0))
  /\ (forall a b, (length axes <= a)%nat -> (b < length buttons)%nat ->
        trigger_value axes buttons a b
        = Ok (of_bool (nth b buttons false)))
  /\ ((length hats <= 0)%nat -> highlight_dpad hats = Ok false)
  /\ (forall i, axis_or_zero axes i <> IndexError)
  /\ (forall i, highlight_if_button buttons i <> IndexError)
  /\ (forall a b, trigger_value axes buttons a b <> IndexError)
  /\ highlight_dpad hats <> IndexError
  /\ exists f,
       normalize d axes buttons hats = Ok f
       /\ ((length axes <= AXIS_LX)%nat -> lx f = lit 0.0)
       /\ ((length axes <= AXIS_LY)%nat -> ly f = lit 0.0)
       /\ ((length axes <= AXIS_RX)%nat -> rx f = lit 0.0)
       /\ ((length axes <= AXIS_RY)%nat -> ry f = lit 0.0)
       /\ ((length buttons <= BTN_X)%nat -> glow_cross f = false)
       /\ ((length buttons <= BTN_CIRCLE)%nat -> glow_circle f = false)
       /\ ((length buttons <= BTN_SQUARE)%nat -> glow_square f = false)
       /\ ((length buttons <= BTN_TRIANGLE)%nat ->
           glow_triangle f = false)
       /\ ((length buttons <= BTN_TOUCH)%nat -> glow_touchpad f = false)
       /\ ((length buttons <= BTN_PS)%nat -> glow_ps f = false)
       /\ ((length hats <= 0)%nat -> glow_dpad f = false)
       /\ ((length axes <= AXIS_L2)%nat ->
           l2_val f = if (BTN_L2 <? length buttons)%nat
                      then of_bool (nth BTN_L2 buttons false)
                      else lit 0.0)
       /\ ((length axes <= AXIS_R2)%nat ->
           r2_val f = if (BTN_R2 <? length buttons)%nat
                      then of_bool (nth BTN_R2 buttons false)
                      else lit 0.0).
Proof.
  repeat apply conj.
  - intros i Hi. split; [now apply py_index_out_of_range|].
    now rewrite axis_or_zero_nth, nth_overflow.
  - intros i Hi. split; [now apply py_index_out_of_range|].
    now rewrite highlight_if_button_nth, nth_overflow.
  - intros a b. apply trigger_value_missing.
  - intros a b Ha Hb. rewrite trigger_value_nth.
    apply Nat.ltb_ge in Ha. apply Nat.ltb_lt in Hb. now rewrite Ha, Hb.
  - intros Hh. rewrite highlight_dpad_nth, nth_overflow by assumption.
    reflexivity.
  - intros i. now rewrite axis_or_zero_nth.
  - intros i. now rewrite highlight_if_button_nth.
  - intros a b. now rewrite trigger_value_nth.
  - now rewrite highlight_dpad_nth.
  - rewrite normalize_Ok. cbv zeta. eexists. split; [reflexivity|].
    cbn [lx ly rx ry glow_cross glow_circle glow_square glow_triangle
         glow_touchpad glow_ps glow_dpad l2_val r2_val].
    repeat apply conj; intros Hlen;
      try (now apply nth_overflow);
      try (apply Nat.ltb_ge in Hlen; now rewrite Hlen).
    now rewrite nth_overflow.
Qed.

Lemma missing_index_safety_witness :
  axis_or_zero (num:=Q) [0.5; 0.25] AXIS_RX = Ok 0.0
  /\ highlight_if_button [true; true] BTN_PS = Ok false
  /\ trigger_value (num:=Q) [0.5; 0.25] [true] AXIS_L2 BTN_L2 = Ok 0.0
  /\ trigger_value (num:=Q) [0.5] [true; true] 1 1 = Ok 1
  /\ highlight_dpad [] = Ok false.
Proof.
  destruct (missing_index_safety Q PyFloat_Q 0.06 [0.5; 0.25] [true; true]
              []) as (Ha & Hb & _ & _ & Hh & _).
  destruct (missing_index_safety Q PyFloat_Q 0.06 [0.5; 0.25] [true] [])
    as (_ & _ & Ht & _).
  destruct (missing_index_safety Q PyFloat_Q 0.06 [0.5] [true; true] [])
    as (_ & _ & _ & Hf & _).
  repeat apply conj.
  - refine (proj2 (Ha AXIS_RX _)). unfold AXIS_RX; simpl; lia.
  - refine (proj2 (Hb BTN_PS _)). unfold BTN_PS; simpl; lia.
  - apply (Ht AXIS_L2 BTN_L2); unfold AXIS_L2, BTN_L2; simpl; lia.
  - apply (Hf 1%nat 1%nat); simpl; lia.
  - apply Hh. simpl; lia.
Defined.

(** ** No controller *)

(** The deadzone starts in [0, 0.5] and no event takes it out. *)
Lemma initial_deadzone (j : option (Device Q)) :
  0 <= deadzone (initial j) <= 0.5.
Proof. split; unfold Qle; simpl; lia. Qed.

Lemma deadzone_invariant (connected : list (Device Q)) (evs : list Event)
    (st st' : Engine Q) :
  0 <= deadzone st <= 0.5 ->
  handle_events connected evs st = Ok (tt, st') ->
  0 <= deadzone st' <= 0.5.
Proof.
  revert st. induction evs as [|ev evs IH]; intros st Hd Hrun.
  - simpl in Hrun. now injection Hrun as <-.
  - simpl in Hrun. unfold bind in Hrun. rewrite handle_event_Ok in Hrun.
    apply (IH _) in Hrun; [exact Hrun|].
    destruct Hd as [Hlo Hhi].
    destruct ev as [| | |[]|]; cbn [deadzone with_running with_joystick
      with_show_debug with_deadzone]; try (now split).
    + now apply decrease_range.
    + now apply increase_range.
Qed.

Lemma drifting_at_rest (d : Q) : 0 <= d -> drifting 0.0 0.0 d = false.
Proof.
  intros Hd. apply not_true_is_false. intros Ht.
  apply drifting_true_iff in Ht. rewrite !Qabs_above in Ht.
  destruct Ht as [[Ht|Ht]|[Ht|Ht]]; lra.
Qed.

(** C6.  With nothing connected [find_joystick] leaves no joystick open,
    whatever was open before, and reports none found; the counts are then
    all zero and the three sampled lists empty.  Normalising these gives
    both sticks at (0.0, 0.0) and not drifting, both triggers at 0.0, no
    button lit, and a d-pad as one at rest, (0, 0); a pass of the loop in
    this state draws the "no controller" line.  The deadzone is any value
    from 0 up, as every deadzone the loop reaches is. *)
Theorem no_device (st : Engine Q) :
  0 <= deadzone st ->
  find_joystick [] st = Ok (false, with_joystick None st)
  /\ joystick (with_joystick None st) = None
  /\ capabilities (joystick (with_joystick None st)) = (0, 0, 0)%nat
  /\ sample (joystick (with_joystick None st)) = ([], [], [])
  /\ normalize (deadzone st) [] [] []
     = Ok {| lx := 0.0; ly := 0.0; rx := 0.0; ry := 0.0;
             drifting_left := false; drifting_right := false;
             glow_cross := false; glow_circle := false;
             glow_square := false; glow_triangle := false;
             glow_touchpad := false; glow_ps := false;
             glow_dpad := false;
             l2_val := 0.0; r2_val := 0.0; l2n := 0.0; r2n := 0.0 |}
  /\ normalize (deadzone st) [] [] []
     = normalize (deadzone st) [] [] [(0, 0)%Z]
  /\ poll (with_joystick None st) = Ok (NoController, with_joystick None st)
  /\ normalize (DEADZONE : float) [] [] []
     = Ok {| lx := lit 0.0; ly := lit 0.0; rx := lit 0.0; ry := lit 0.0;
             drifting_left := false; drifting_right := false;
             glow_cross := false; glow_circle := false;
             glow_square := false; glow_triangle := false;
             glow_touchpad := false; glow_ps := false;
             glow_dpad := false;
             l2_val := lit 0.0; r2_val := lit 0.0;
             l2n := lit 0.0; r2n := lit 0.0 |}.
Proof.
  intros Hd. repeat apply conj.
  - reflexivity.
  - reflexivity.
  - reflexivity.
  - reflexivity.
  - rewrite normalize_Ok. cbn.
    now rewrite (drifting_at_rest (deadzone st) Hd).
  - reflexivity.
  - now apply poll_None.
  - vm_compute. reflexivity.
Qed.

Lemma no_device_witness :
  find_joystick [] (scenario_engine (num:=Q))
  = Ok (false, initial None)
  /\ capabilities (joystick (initial (num:=Q) None)) = (0, 0, 0)%nat
  /\ poll (initial (num:=Q) None) = Ok (NoController, initial None).
Proof.
  assert (Hd : 0 <= deadzone (scenario_engine (num:=Q))).
  { unfold Qle; simpl; lia. }
  destruct (no_device scenario_engine Hd) as (Hf & _ & Hc & _ & _ & _ & Hp & _).
  repeat apply conj; [exact Hf | exact Hc | exact Hp].
Defined.

(** ** End to end *)

(** C7.  Six axes reading 0.02, -0.01, 0.9, 0.0, -0.5 and 0.8 under a
    deadzone of 0.06, whatever the buttons and hats: the left stick is
    (0.02, -0.01) and not drifting, the right stick (0.9, 0.0) and
    drifting, L2 is -0.5 normalised to 0.25 and R2 is 0.8 normalised to
    0.8.  The same holds of a pass of the loop on a device of six axes,
    fourteen buttons and one hat, on the rationals and in binary64. *)
Theorem end_to_end :
  (forall (buttons : list bool) (hats : list (Z * Z)),
     exists f : Frame Q,
       normalize 0.06 [0.02; -0.01; 0.9; 0.0; -0.5; 0.8] buttons hats
       = Ok f
       /\ lx f = 0.02 /\ ly f = -0.01 /\ drifting_left f = false
       /\ rx f = 0.9 /\ ry f = 0.0 /\ drifting_right f = true
       /\ l2_val f = -0.5 /\ l2n f == 0.25
       /\ r2_val f = 0.8 /\ r2n f == 0.8)
  /\ capabilities (Some (scenario_device (num:=Q))) = (6, 14, 1)%nat
  /\ (exists f : Frame Q,
        poll scenario_engine
        = Ok (Telemetry f (Some (6, 14, 1)%nat), scenario_engine)
        /\ lx f = 0.02 /\ ly f = -0.01 /\ drifting_left f = false
        /\ rx f = 0.9 /\ ry f = 0.0 /\ drifting_right f = true
        /\ l2_val f = -0.5 /\ l2n f == 0.25
        /\ r2_val f = 0.8 /\ r2n f == 0.8)
  /\ (exists f : Frame float,
        poll scenario_engine
        = Ok (Telemetry f (Some (6, 14, 1)%nat), scenario_engine)
        /\ lx f = lit 0.02 /\ ly f = lit (-0.01)
        /\ drifting_left f = false
        /\ rx f = lit 0.9 /\ ry f = lit 0.0 /\ drifting_right f = true
        /\ l2_val f = lit (-0.5) /\ l2n f = lit 0.25
        /\ r2_val f = lit 0.8 /\ r2n f = lit 0.8).
Proof.
  repeat apply conj.
  - intros buttons hats. rewrite normalize_Ok. cbv zeta.
    eexists. split; [reflexivity|].
    cbn [lx ly rx ry drifting_left drifting_right l2_val r2_val l2n r2n].
    repeat apply conj; reflexivity.
  - reflexivity.
  - eexists. split; [vm_compute; reflexivity|].
    repeat apply conj; reflexivity.
  - eexists. split; [vm_compute; reflexivity|].
    repeat apply conj; vm_compute; reflexivity.
Qed.

(** * Further properties of the loop *)

(** ** What a batch of events does *)

Section EventFacts.
Context {num : Type} `{PyFloat num}.

(** The four globals after the events of one pass, each on its own. *)
Lemma handle_events_state (connected : list (Device num))
    (evs : list Event) (st : Engine num) :
  handle_events connected evs st =
  Ok (tt,
      {| joystick := if existsb is_hotplug evs then hd_error connected
                     else joystick st;
         deadzone := adjust_deadzone evs (deadzone st);
         show_debug :=
           xorb (show_debug st)
                (Nat.odd (length (filter (is_keydown K_d) evs)));
         running := running st && negb (existsb is_quit evs) |}).
Proof.
  revert st. induction evs as [|ev evs IH]; intros st.
  - destruct st as [j d s r]. cbn. now rewrite xorb_false_r, andb_true_r.
  - cbn [handle_events]. unfold bind at 1. rewrite handle_event_Ok, IH.
    do 2 f_equal.
    destruct ev as [| | |[]|]; cbn -[Nat.odd]; f_equal;
      try (now destruct (existsb is_hotplug evs));
      try (now rewrite andb_false_r);
      try (now rewrite andb_true_r).
    rewrite Nat.odd_succ, <- Nat.negb_odd.
    now destruct (show_debug st), (Nat.odd _).
Qed.

Lemma tick_Ok (connected : list (Device num)) (evs : list Event)
    (st : Engine num) :
  exists scr st',
    handle_events connected evs st = Ok (tt, st')
    /\ poll st' = Ok (scr, st')
    /\ tick connected evs st = Ok (scr, st').
Proof.
  destruct (handle_events_Ok connected evs st) as (st' & Hev).
  destruct (poll_Ok st') as (scr & Hp).
  exists scr, st'. unfold tick, bind. now rewrite Hev, Hp.
Qed.

End EventFacts.

(** ** Discovery and hot-plug *)

(** X1.  [find_joystick] opens the first device enumerated, whatever was
    open before, and opens none when nothing is enumerated; it returns
    [True] exactly when a joystick is open afterwards, leaves the other
    globals alone, and a second call on the same enumeration changes
    nothing more. *)
Theorem find_joystick_first_wins (num : Type) (P : PyFloat num)
    (connected : list (Device num)) (st : Engine num) :
  exists found st',
    find_joystick connected st = Ok (found, st')
    /\ joystick st' = hd_error connected
    /\ (found = true <-> exists j, joystick st' = Some j)
    /\ deadzone st' = deadzone st
    /\ show_debug st' = show_debug st
    /\ running st' = running st
    /\ find_joystick connected st' = Ok (found, st')
    /\ (forall previous,
          find_joystick connected (with_joystick previous st)
          = Ok (found, st')).
Proof.
  rewrite find_joystick_Ok. do 2 eexists. split; [reflexivity|].
  destruct connected as [|j rest]; cbn; repeat apply conj;
    try reflexivity; try (intros; reflexivity).
  - discriminate.
  - intros [j Hj]. discriminate Hj.
  - intros _. now exists j.
Qed.

Lemma find_joystick_first_wins_witness :
  exists st',
    find_joystick [scenario_device] (initial (num:=Q) None)
    = Ok (true, st')
    /\ joystick st' = Some scenario_device.
Proof.
  destruct (find_joystick_first_wins Q PyFloat_Q [scenario_device]
              (initial None))
    as (found & st' & Hf & Hj & Hiff & _).
  exists st'. split; [|exact Hj].
  rewrite Hf. f_equal. f_equal. apply (proj2 Hiff).
  exists scenario_device. exact Hj.
Defined.

(** X2.  After the events of a pass the joystick is the first device
    connected if any of the events was a hot-plug event, and the one held
    before otherwise: a device that comes or goes without such an event is
    not noticed.  The screen of the pass is the "no controller" line
    exactly when no joystick is held then, and otherwise the telemetry of
    the lists the held device reports. *)
Theorem tick_joystick (num : Type) (P : PyFloat num)
    (connected : list (Device num)) (evs : list Event) (st : Engine num) :
  exists scr st',
    tick connected evs st = Ok (scr, st')
    /\ joystick st' = (if existsb is_hotplug evs then hd_error connected
                       else joystick st)
    /\ (joystick st' = None <-> scr = NoController)
    /\ (forall j, joystick st' = Some j ->
          exists f,
            normalize (deadzone st') (dev_axes j) (dev_buttons j)
              (dev_hats j) = Ok f
            /\ scr = Telemetry f
                       (if show_debug st'
                        then Some (length (dev_axes j),
                                   length (dev_buttons j),
                                   length (dev_hats j))
                        else None)).
Proof.
  destruct (tick_Ok connected evs st) as (scr & st' & Hev & Hp & Ht).
  exists scr, st'. split; [exact Ht|].
  rewrite handle_events_state in Hev. injection Hev as Hst.
  split; [now rewrite <- Hst|].
  destruct (joystick st') as [j|] eqn:Hj.
  - destruct (poll_Some st' j Hj) as (f & Hn & Hp').
    rewrite Hp' in Hp. injection Hp as Hscr. split.
    + split; [discriminate|]. intros ->. discriminate Hscr.
    + intros j' [= <-]. exists f. split; [exact Hn|]. now rewrite <- Hscr.
  - rewrite (poll_None st' Hj) in Hp. injection Hp as Hscr. split.
    + now split.
    + intros j' Hj'. discriminate Hj'.
Qed.

Lemma tick_joystick_witness :
  exists f dbg st',
    tick [scenario_device] [JOYDEVICEADDED] (initial (num:=Q) None)
    = Ok (Telemetry f dbg, st')
    /\ normalize (deadzone st') (dev_axes scenario_device)
         (dev_buttons scenario_device) (dev_hats scenario_device) = Ok f.
Proof.
  destruct (tick_joystick Q PyFloat_Q [scenario_device] [JOYDEVICEADDED]
              (initial None))
    as (scr & st' & Ht & Hj & _ & Hsome).
  destruct (Hsome scenario_device Hj) as (f & Hn & Hscr).
  exists f. eexists. exists st'. split; [|exact Hn].
  rewrite Ht, Hscr. reflexivity.
Defined.

(** X3.  [running] is only ever cleared: after the events of a pass it is
    true exactly when it was true before and none of them was [QUIT]; the
    events that follow a [QUIT] in the same batch are still handled. *)
Theorem running_latch (num : Type) (P : PyFloat num)
    (connected : list (Device num)) (evs : list Event) (st : Engine num) :
  exists st',
    handle_events connected evs st = Ok (tt, st')
    /\ running st' = running st && negb (existsb is_quit evs)
    /\ (running st = false -> running st' = false)
    /\ (forall evs1 evs2, evs = evs1 ++ QUIT :: evs2 ->
          exists mid,
            handle_events connected evs1 st = Ok (tt, mid)
            /\ handle_events connected evs2 (with_running false mid)
               = Ok (tt, st')).
Proof.
  rewrite handle_events_state. eexists. split; [reflexivity|].
  cbn [running]. repeat apply conj.
  - reflexivity.
  - now intros ->.
  - intros evs1 evs2 ->. rewrite handle_events_state. eexists.
    split; [reflexivity|]. rewrite handle_events_state.
    unfold with_running, adjust_deadzone. cbn [joystick deadzone
      show_debug running]. do 2 f_equal.
    rewrite !existsb_app, filter_app, length_app, fold_left_app.
    cbn [existsb is_hotplug is_quit filter is_keydown fold_left].
    rewrite Nat.odd_add, xorb_assoc, orb_true_l, orb_true_r.
    cbn [negb andb orb]. rewrite andb_false_r.
    f_equal.
    now destruct (existsb is_hotplug evs1), (existsb is_hotplug evs2).
Qed.

Lemma running_latch_witness :
  exists mid st',
    handle_events (num:=Q) [] [KEYDOWN K_d] scenario_engine = Ok (tt, mid)
    /\ handle_events [] [KEYDOWN K_UP] (with_running false mid)
       = Ok (tt, st')
    /\ handle_events [] [KEYDOWN K_d; QUIT; KEYDOWN K_UP] scenario_engine
       = Ok (tt, st')
    /\ running st' = false.
Proof.
  destruct (running_latch Q PyFloat_Q [] [KEYDOWN K_d; QUIT; KEYDOWN K_UP]
              scenario_engine)
    as (st' & Hev & Hrun & _ & Hsplit).
  destruct (Hsplit [KEYDOWN K_d] [KEYDOWN K_UP] eq_refl)
    as (mid & Hmid & Hrest).
  exists mid, st'. repeat apply conj; [exact Hmid|exact Hrest|exact Hev|].
  exact Hrun.
Defined.

(** X4.  The debug flag after a pass is the flag before, flipped once for
    each [d] key among the events: an even number of presses leaves it as
    it was, and no other event touches it. *)
Theorem show_debug_parity (num : Type) (P : PyFloat num)
    (connected : list (Device num)) (evs : list Event) (st : Engine num) :
  exists st',
    handle_events connected evs st = Ok (tt, st')
    /\ show_debug st'
       = xorb (show_debug st)
              (Nat.odd (length (filter (is_keydown K_d) evs)))
    /\ (Nat.even (length (filter (is_keydown K_d) evs)) = true ->
        show_debug st' = show_debug st).
Proof.
  rewrite handle_events_state. eexists. split; [reflexivity|].
  cbn [show_debug]. split; [reflexivity|].
  intros Heven. rewrite <- Nat.negb_even, Heven. apply xorb_false_r.
Qed.

Lemma show_debug_parity_witness :
  exists st',
    handle_events (num:=Q) [] [KEYDOWN K_d; KEYDOWN K_UP; KEYDOWN K_d]
      scenario_engine = Ok (tt, st')
    /\ show_debug st' = true.
Proof.
  destruct (show_debug_parity Q PyFloat_Q []
              [KEYDOWN K_d; KEYDOWN K_UP; KEYDOWN K_d] scenario_engine)
    as (st' & Hev & _ & Heven).
  exists st'. split; [exact Hev|]. rewrite (Heven eq_refl). reflexivity.
Defined.

(** X5.  The deadzone after a pass is the deadzone before with the up and
    down keys applied in their order; every other event can be dropped
    from the batch without changing it. *)
Theorem deadzone_keys_only (num : Type) (P : PyFloat num)
    (connected : list (Device num)) (evs : list Event) (st : Engine num) :
  exists st',
    handle_events connected evs st = Ok (tt, st')
    /\ deadzone st' = adjust_deadzone evs (deadzone st)
    /\ deadzone st'
       = adjust_deadzone
           (filter (fun ev => is_keydown K_UP ev || is_keydown K_DOWN ev)
              evs)
           (deadzone st).
Proof.
  rewrite handle_events_state. eexists. split; [reflexivity|].
  cbn [deadzone]. split; [reflexivity|].
  generalize (deadzone st). unfold adjust_deadzone.
  induction evs as [|ev evs IH]; intros d; [reflexivity|].
  destruct ev as [| | |[]|]; cbn; apply IH.
Qed.

(** ** The loop as a whole *)

Section LoopFacts.
Context {num : Type} `{PyFloat num}.

Lemma main_loop_cons (connected : list (Device num)) (evs : list Event)
    (rest : list (list (Device num) * list Event)) (st : Engine num) :
  main_loop ((connected, evs) :: rest) st =
  if running st then
    match tick connected evs st with
    | Ok (scr, st1) =>
        match main_loop rest st1 with
        | Ok (scrs, st2) => Ok (scr :: scrs, st2)
        | IndexError => IndexError
        end
    | IndexError => IndexError
    end
  else Ok ([], st).
Proof.
  cbn [main_loop]. unfold bind at 1. unfold get at 1.
  destruct (running st); [|reflexivity].
  unfold bind at 1. destruct (tick connected evs st) as [[scr st1]|];
    [|reflexivity].
  unfold bind at 1. destruct (main_loop rest st1) as [[scrs st2]|];
    reflexivity.
Qed.

Lemma main_loop_stopped (inputs : list (list (Device num) * list Event))
    (st : Engine num) :
  running st = false -> main_loop inputs st = Ok ([], st).
Proof.
  intros Hr. destruct inputs as [|[connected evs] rest]; [reflexivity|].
  now rewrite main_loop_cons, Hr.
Qed.

Lemma tick_running (connected : list (Device num)) (evs : list Event)
    (st : Engine num) :
  exists scr st1,
    tick connected evs st = Ok (scr, st1)
    /\ running st1 = running st && negb (existsb is_quit evs)
    /\ deadzone st1 = adjust_deadzone evs (deadzone st).
Proof.
  destruct (tick_Ok connected evs st) as (scr & st1 & Hev & _ & Ht).
  exists scr, st1. split; [exact Ht|].
  rewrite handle_events_state in Hev. injection Hev as <-. now split.
Qed.

End LoopFacts.

(** X6.  The loop makes one pass for each time its condition is reached
    with [running] set, so up to and with the pass whose events hold the
    first [QUIT]: that pass still draws its screen, and what would come
    after it is never looked at.  [running] is clear at the end exactly
    when a [QUIT] was among the events; with [running] clear at the start
    no pass is made.  No pass raises. *)
Theorem main_loop_until_quit (num : Type) (P : PyFloat num)
    (inputs : list (list (Device num) * list Event)) (st : Engine num) :
  (running st = false -> main_loop inputs st = Ok ([], st))
  /\ (running st = true ->
      exists screens st',
        main_loop inputs st = Ok (screens, st')
        /\ main_loop (until_quit inputs) st = Ok (screens, st')
        /\ length screens = length (until_quit inputs)
        /\ running st'
           = negb (existsb (fun i => existsb is_quit (snd i)) inputs)).
Proof.
  split; [apply main_loop_stopped|].
  revert st. induction inputs as [|[connected evs] rest IH]; intros st Hr.
  - exists [], st. cbn. now repeat split.
  - destruct (tick_running connected evs st) as (scr & st1 & Ht & Hr1 & _).
    rewrite Hr in Hr1. cbn [andb] in Hr1.
    cbn [until_quit existsb snd].
    destruct (existsb is_quit evs) eqn:Hq; cbn [negb orb] in *;
      rewrite !main_loop_cons, Hr, Ht.
    + rewrite (main_loop_stopped rest st1 Hr1).
      exists [scr], st1. cbn. now repeat split.
    + destruct (IH st1 Hr1) as (scrs & st2 & Hm & Hu & Hlen & Hrun).
      rewrite Hm, Hu.
      exists (scr :: scrs), st2. cbn [length]. now rewrite Hlen.
Qed.

Lemma main_loop_until_quit_witness :
  exists screens st',
    main_loop [([], [OtherEvent; QUIT; KEYDOWN K_d]); ([], [KEYDOWN K_d])]
      (scenario_engine (num:=Q)) = Ok (screens, st')
    /\ main_loop
         (until_quit
            [([], [OtherEvent; QUIT; KEYDOWN K_d]); ([], [KEYDOWN K_d])])
         (scenario_engine (num:=Q)) = Ok (screens, st')
    /\ length screens = 1%nat
    /\ running st' = false.
Proof.
  apply (proj2 (main_loop_until_quit Q PyFloat_Q
                  [([], [OtherEvent; QUIT; KEYDOWN K_d]);
                   ([], [KEYDOWN K_d])]
                  scenario_engine)).
  reflexivity.
Defined.

(** X7.  On the rationals, a loop started with the deadzone of line 19
    ends, after any passes, with a deadzone in [0, 0.5]. *)
Theorem main_loop_deadzone_range (j : option (Device Q))
    (inputs : list (list (Device Q) * list Event)) :
  exists screens st',
    main_loop inputs (initial j) = Ok (screens, st')
    /\ 0 <= deadzone st' <= 0.5.
Proof.
  generalize (initial_deadzone j). generalize (initial j).
  induction inputs as [|[connected evs] rest IH]; intros st Hd.
  - exists [], st. now split.
  - rewrite main_loop_cons. destruct (running st).
    + destruct (tick_Ok connected evs st) as (scr & st1 & Hev & _ & Ht).
      rewrite Ht.
      destruct (IH st1 (deadzone_invariant connected evs st st1 Hd Hev))
        as (scrs & st2 & Hm & Hd2).
      rewrite Hm. now exists (scr :: scrs), st2.
    + now exists [], st.
Qed.

(** ** What is printed on a connection *)

Lemma nth_map_seq {A : Type} (f : nat -> A) (n i : nat) (d : A) :
  (i < n)%nat -> nth i (map f (seq 0 n)) d = f i.
Proof.
  intros Hi. rewrite (nth_indep _ d (f 0%nat))
    by now rewrite length_map, length_seq.
  rewrite map_nth, seq_nth by assumption. reflexivity.
Qed.

(** X8.  [print_mapping_info] prints nothing without a joystick.  With
    one it prints the header, then for axes, buttons and hats in turn the
    count line followed by one line for each index from 0 up, then the
    closing rule: five lines more than the three counts together. *)
Theorem print_mapping_info_lines (num : Type) (j : Device num) :
  let a := length (dev_axes j) in
  let b := length (dev_buttons j) in
  let h := length (dev_hats j) in
  let out := print_mapping_info (Some j) in
  print_mapping_info (@None (Device num)) = []
  /\ length out = (5 + a + b + h)%nat
  /\ nth 0 out String.EmptyString
     = "----- Controller mapping info -----"%string
  /\ nth 1 out String.EmptyString
     = String.append "Axes (count): " (decimal a)
  /\ (forall i, (i < a)%nat ->
        nth (2 + i) out String.EmptyString
        = String.append " axis " (decimal i))
  /\ nth (2 + a) out String.EmptyString
     = String.append "Buttons (count): " (decimal b)
  /\ (forall i, (i < b)%nat ->
        nth (3 + a + i) out String.EmptyString
        = String.append " button " (decimal i))
  /\ nth (3 + a + b) out String.EmptyString
     = String.append "Hats (d-pad) count: " (decimal h)
  /\ (forall i, (i < h)%nat ->
        nth (4 + a + b + i) out String.EmptyString
        = String.append " hat " (decimal i))
  /\ nth (4 + a + b + h) out String.EmptyString
     = "-----------------------------------"%string.
Proof.
  intros a b h out. unfold out, print_mapping_info.
  unfold get_numaxes, get_numbuttons, get_numhats. fold a b h.
  set (la := map (fun i => String.append " axis " (decimal i)) (seq 0 a)).
  set (lb := map (fun i => String.append " button " (decimal i)) (seq 0 b)).
  set (lh := map (fun i => String.append " hat " (decimal i)) (seq 0 h)).
  assert (Hla : length la = a) by (unfold la; now rewrite length_map, length_seq).
  assert (Hlb : length lb = b) by (unfold lb; now rewrite length_map, length_seq).
  assert (Hlh : length lh = h) by (unfold lh; now rewrite length_map, length_seq).
  assert (Hna : forall i, (i < a)%nat ->
            nth i la String.EmptyString
            = String.append " axis " (decimal i))
    by (intros i Hi; unfold la;
        now apply (nth_map_seq
                     (fun k => String.append " axis " (decimal k)))).
  assert (Hnb : forall i, (i < b)%nat ->
            nth i lb String.EmptyString
            = String.append " button " (decimal i))
    by (intros i Hi; unfold lb;
        now apply (nth_map_seq
                     (fun k => String.append " button " (decimal k)))).
  assert (Hnh : forall i, (i < h)%nat ->
            nth i lh String.EmptyString
            = String.append " hat " (decimal i))
    by (intros i Hi; unfold lh;
        now apply (nth_map_seq
                     (fun k => String.append " hat " (decimal k)))).
  clearbody la lb lh. cbn [app]. repeat apply conj.
  - reflexivity.
  - repeat (rewrite length_app || rewrite length_cons).
    cbn [length]. rewrite Hla, Hlb, Hlh. lia.
  - reflexivity.
  - reflexivity.
  - intros i Hi. cbn [Nat.add nth].
    rewrite app_nth1 by lia. now apply Hna.
  - cbn [Nat.add nth]. rewrite app_nth2 by lia.
    now rewrite Hla, Nat.sub_diag.
  - intros i Hi. cbn [Nat.add nth]. rewrite app_nth2 by lia.
    rewrite Hla. replace (S (a + i) - a)%nat with (S i) by lia.
    cbn [nth app]. rewrite app_nth1 by lia. now apply Hnb.
  - cbn [Nat.add nth]. rewrite app_nth2 by lia.
    rewrite Hla. replace (S (a + b) - a)%nat with (S b) by lia.
    cbn [nth app]. rewrite app_nth2 by lia.
    now rewrite Hlb, Nat.sub_diag.
  - intros i Hi. cbn [Nat.add nth]. rewrite app_nth2 by lia.
    rewrite Hla. replace (S (S (a + b + i)) - a)%nat with (S (S (b + i)))
      by lia.
    cbn [nth app]. rewrite app_nth2 by lia.
    rewrite Hlb. replace (S (b + i) - b)%nat with (S i) by lia.
    cbn [nth app]. rewrite app_nth1 by lia. now apply Hnh.
  - cbn [Nat.add nth]. rewrite app_nth2 by lia.
    rewrite Hla. replace (S (S (a + b + h)) - a)%nat with (S (S (b + h)))
      by lia.
    cbn [nth app]. rewrite app_nth2 by lia.
    rewrite Hlb. replace (S (b + h) - b)%nat with (S h) by lia.
    cbn [nth app]. rewrite app_nth2 by lia.
    now rewrite Hlh, Nat.sub_diag.
Qed.

Lemma print_mapping_info_lines_witness :
  nth 5 (print_mapping_info (Some (scenario_device (num:=Q))))
    String.EmptyString = " axis 3"%string
  /\ nth 21 (print_mapping_info (Some (scenario_device (num:=Q))))
       String.EmptyString = " button 12"%string
  /\ nth 24 (print_mapping_info (Some (scenario_device (num:=Q))))
       String.EmptyString = " hat 0"%string.
Proof.
  destruct (print_mapping_info_lines Q scenario_device)
    as (_ & _ & _ & _ & Ha & _ & Hb & _ & Hh & _).
  repeat apply conj.
  - apply (Ha 3%nat). simpl; lia.
  - apply (Hb 12%nat). simpl; lia.
  - apply (Hh 0%nat). simpl; lia.
Defined.

(** ** What a poll reads and what the deadzone touches *)






(** X10.  The deadzone enters a poll through the two drift flags and
    nowhere else: under another deadzone the same lists give the same
    stick, trigger, button and d-pad values.  The stick values are the
    axis readings as they are, neither clamped nor cut by the deadzone. *)
Theorem deadzone_only_flags (num : Type) (P : PyFloat num)
    (d1 d2 : num) (axes : list num) (buttons : list bool)
    (hats : list (Z * Z)) :
  exists f1 f2,
    normalize d1 axes buttons hats = Ok f1
    /\ normalize d2 axes buttons hats = Ok f2
    /\ f2 = {| lx := lx f1; ly := ly f1; rx := rx f1; ry := ry f1;
               drifting_left := drifting (lx f1) (ly f1) d2;
               drifting_right := drifting (rx f1) (ry f1) d2;
               glow_cross := glow_cross f1;
               glow_circle := glow_circle f1;
               glow_square := glow_square f1;
               glow_triangle := glow_triangle f1;
               glow_touchpad := glow_touchpad f1;
               glow_ps := glow_ps f1;
               glow_dpad := glow_dpad f1;
               l2_val := l2_val f1; r2_val := r2_val f1;
               l2n := l2n f1; r2n := r2n f1 |}
    /\ lx f1 = nth AXIS_LX axes (lit 0.0)
    /\ ly f1 = nth AXIS_LY axes (lit 0.0)
    /\ rx f1 = nth AXIS_RX axes (lit 0.0)
    /\ ry f1 = nth AXIS_RY axes (lit 0.0).
Proof.
  rewrite !normalize_Ok. cbv zeta. do 2 eexists.
  split; [reflexivity|]. split; [reflexivity|].
  cbn. repeat split; reflexivity.
Qed.

(** X11.  A trigger whose axis the device does not have is read from its
    button, and normalises to 1 when the button is pressed and to 0 when
    it is not or is missing too: the bar is full or empty.  On the
    rationals and in binary64. *)
Theorem trigger_from_button :
  (forall (d : Q) (axes : list Q) (buttons : list bool)
          (hats : list (Z * Z)),
     exists f,
       normalize d axes buttons hats = Ok f
       /\ ((length axes <= AXIS_L2)%nat ->
           l2n f == (if nth BTN_L2 buttons false then 1 else 0))
       /\ ((length axes <= AXIS_R2)%nat ->
           r2n f == (if nth BTN_R2 buttons false then 1 else 0)))
  /\ (forall (d : float) (axes : list float) (buttons : list bool)
             (hats : list (Z * Z)),
        exists f,
          normalize d axes buttons hats = Ok f
          /\ ((length axes <= AXIS_L2)%nat ->
              l2n f = (if nth BTN_L2 buttons false then lit 1 else lit 0))
          /\ ((length axes <= AXIS_R2)%nat ->
              r2n f
              = (if nth BTN_R2 buttons false then lit 1 else lit 0))).
Proof.
  split; intros d axes buttons hats; rewrite normalize_Ok; cbv zeta;
    eexists; (split; [reflexivity|]); cbn [l2n r2n]; split; intros Ha;
    apply Nat.ltb_ge in Ha; rewrite Ha.
  - destruct (Nat.ltb_spec BTN_L2 (length buttons)) as [Hb|Hb].
    + now destruct (nth BTN_L2 buttons false).
    + now rewrite nth_overflow.
  - destruct (Nat.ltb_spec BTN_R2 (length buttons)) as [Hb|Hb].
    + now destruct (nth BTN_R2 buttons false).
    + now rewrite nth_overflow.
  - destruct (Nat.ltb_spec BTN_L2 (length buttons)) as [Hb|Hb].
    + destruct (nth BTN_L2 buttons false); vm_compute; reflexivity.
    + rewrite nth_overflow by assumption. vm_compute; reflexivity.
  - destruct (Nat.ltb_spec BTN_R2 (length buttons)) as [Hb|Hb].
    + destruct (nth BTN_R2 buttons false); vm_compute; reflexivity.
    + rewrite nth_overflow by assumption. vm_compute; reflexivity.
Qed.

Lemma trigger_from_button_witness :
  exists f : Frame Q,
    normalize 0.06 [0.1; 0.2; 0.3; 0.4]
      [false; false; false; false; false; false; true] [] = Ok f
    /\ l2n f == 1 /\ r2n f == 0.
Proof.
  destruct trigger_from_button as (HQ & _).
  destruct (HQ 0.06 [0.1; 0.2; 0.3; 0.4]
              [false; false; false; false; false; false; true] [])
    as (f & Hn & Hl & Hr).
  exists f. split; [exact Hn|]. split.
  - apply Hl. unfold AXIS_L2; simpl; lia.
  - apply Hr. unfold AXIS_R2; simpl; lia.
Defined.

(** ** The order of binary64 *)

(** The comparisons of binary64 through their specification on
    [spec_float]: signs first, then exponents, then mantissas, with NaN
    comparing false to everything. *)
Ltac order_cases :=
  repeat match goal with
  | H : context [Pos.compare_cont Eq ?a ?b] |- _ =>
      change (Pos.compare_cont Eq a b) with (Pos.compare a b) in H
  | |- context [Pos.compare_cont Eq ?a ?b] =>
      change (Pos.compare_cont Eq a b) with (Pos.compare a b)
  end;
  repeat match goal with
  | H : context [Z.compare ?a ?b] |- _ =>
      destruct (Z.compare_spec a b); simpl in H; try discriminate H
  | H : context [Pos.compare ?a ?b] |- _ =>
      destruct (Pos.compare_spec a b); simpl in H; try discriminate H
  | |- context [Z.compare ?a ?b] =>
      destruct (Z.compare_spec a b); simpl
  | |- context [Pos.compare ?a ?b] =>
      destruct (Pos.compare_spec a b); simpl
  end; subst; try reflexivity; try discriminate; try lia.

Lemma SFltb_SFleb (a b : spec_float) : SFltb a b = true -> SFleb a b = true.
Proof.
  unfold SFltb, SFleb. destruct (SFcompare a b) as [[]|]; congruence.
Qed.

Lemma SFleb_SFltb_trans (a b c : spec_float) :
  SFleb a b = true -> SFltb b c = true -> SFltb a c = true.
Proof.
  unfold SFltb, SFleb.
  destruct a as [sa|sa| |sa ma ea], b as [sb|sb| |sb mb eb],
    c as [sc|sc| |sc mc ec]; simpl; try discriminate; try reflexivity;
    try destruct sa; try destruct sb; try destruct sc; simpl;
    try discriminate; try reflexivity; intros H1 H2; order_cases.
Qed.

Lemma SFleb_trans (a b c : spec_float) :
  SFleb a b = true -> SFleb b c = true -> SFleb a c = true.
Proof.
  unfold SFleb.
  destruct a as [sa|sa| |sa ma ea], b as [sb|sb| |sb mb eb],
    c as [sc|sc| |sc mc ec]; simpl; try discriminate; try reflexivity;
    try destruct sa; try destruct sb; try destruct sc; simpl;
    try discriminate; try reflexivity; intros H1 H2; order_cases.
Qed.

Lemma SFleb_not_SFltb (a b : spec_float) :
  SFleb a b = true -> SFltb b a = false.
Proof.
  unfold SFltb, SFleb.
  destruct a as [sa|sa| |sa ma ea], b as [sb|sb| |sb mb eb];
    simpl; try discriminate; try reflexivity;
    try destruct sa; try destruct sb; simpl;
    try discriminate; try reflexivity; intros H1; order_cases.
Qed.

Lemma ltb_leb (a b : float) :
  PrimFloat.ltb a b = true -> PrimFloat.leb a b = true.
Proof. rewrite FloatAxioms.ltb_spec, FloatAxioms.leb_spec. apply SFltb_SFleb. Qed.

Lemma leb_ltb_trans (a b c : float) :
  PrimFloat.leb a b = true -> PrimFloat.ltb b c = true ->
  PrimFloat.ltb a c = true.
Proof. rewrite FloatAxioms.leb_spec, !FloatAxioms.ltb_spec. apply SFleb_SFltb_trans. Qed.

Lemma leb_trans (a b c : float) :
  PrimFloat.leb a b = true -> PrimFloat.leb b c = true ->
  PrimFloat.leb a c = true.
Proof. rewrite !FloatAxioms.leb_spec. apply SFleb_trans. Qed.

Lemma leb_not_ltb (a b : float) :
  PrimFloat.leb a b = true -> PrimFloat.ltb b a = false.
Proof. rewrite FloatAxioms.leb_spec, FloatAxioms.ltb_spec. apply SFleb_not_SFltb. Qed.

Lemma abs_opp (a : float) : PrimFloat.abs (PrimFloat.opp a) = PrimFloat.abs a.
Proof.
  rewrite <- (SF2Prim_Prim2SF (PrimFloat.abs (PrimFloat.opp a))).
  rewrite <- (SF2Prim_Prim2SF (PrimFloat.abs a)).
  rewrite !FloatAxioms.abs_spec, FloatAxioms.opp_spec. now destruct (Prim2SF a).
Qed.

Lemma Qabs_Qopp (x : Q) : Qabs (- x) = Qabs x.
Proof. destruct x as [n p]. unfold Qabs, Qopp. cbn. now rewrite Z.abs_opp. Qed.

(** ** Drift detection and the deadzone, beyond exact arithmetic *)

(** X12.  Raising the deadzone never makes a stick drift that did not:
    what drifts under a deadzone drifts under every smaller one.  This
    holds on the rationals and for all binary64 values.  On the rationals,
    from a deadzone of [0, 0.5], the down key can only clear a drift flag
    and the up key can only set one. *)
Theorem drifting_monotone :
  (forall x y d d' : Q,
     d <= d' -> drifting x y d' = true -> drifting x y d = true)
  /\ (forall x y d d' : float,
        fle d d' = true -> drifting x y d' = true ->
        drifting x y d = true)
  /\ (forall x y d : Q, 0 <= d <= 0.5 ->
        (drifting x y (increase d) = true -> drifting x y d = true)
        /\ (drifting x y d = true -> drifting x y (decrease d) = true)).
Proof.
  assert (HQ : forall x y d d' : Q,
             d <= d' -> drifting x y d' = true -> drifting x y d = true).
  { intros x y d d' Hle. rewrite !drifting_true_iff.
    intros [Hx|Hy]; [left|right]; lra. }
  split; [exact HQ|split].
  - intros x y d d' Hle. unfold drifting. cbn [flt fle PyFloat_binary64] in *.
    rewrite !orb_true_iff.
    intros [Hx|Hy]; [left|right]; eapply leb_ltb_trans; eassumption.
  - intros x y d [Hlo Hhi]. split; apply HQ.
    + destruct (Qlt_le_dec (d + 0.01) 0.5) as [Hs|Hc].
      * rewrite increase_step by assumption. lra.
      * rewrite increase_clamped by assumption. lra.
    + destruct (Qlt_le_dec 0 (d - 0.01)) as [Hs|Hc].
      * rewrite decrease_step by assumption. lra.
      * rewrite decrease_clamped by assumption. lra.
Qed.

Lemma drifting_monotone_witness :
  drifting (num:=Q) 0.2 0.0 0.06 = true
  /\ drifting (num:=float) (lit 0.2) (lit 0.0) (lit 0.06) = true
  /\ drifting (num:=Q) 0.2 0.0 (decrease 0.1) = true.
Proof.
  destruct drifting_monotone as (HQ & HF & Hkeys).
  repeat apply conj.
  - apply (HQ 0.2 0.0 0.06 0.1); [unfold Qle; simpl; lia|reflexivity].
  - apply (HF (lit 0.2) (lit 0.0) (lit 0.06) (lit 0.1));
      vm_compute; reflexivity.
  - refine (proj2 (Hkeys 0.2 0.0 0.1 _) _); [|reflexivity].
    split; unfold Qle; simpl; lia.
Defined.

(** X13.  The drift test does not tell a reading from its negative, nor
    the x axis from the y axis; on the rationals and for all binary64
    values. *)
Theorem drifting_symmetric :
  (forall x y d : Q,
     drifting (- x) y d = drifting x y d
     /\ drifting x (- y) d = drifting x y d
     /\ drifting y x d = drifting x y d)
  /\ (forall x y d : float,
        drifting (PrimFloat.opp x) y d = drifting x y d
        /\ drifting x (PrimFloat.opp y) d = drifting x y d
        /\ drifting y x d = drifting x y d).
Proof.
  split; intros x y d; unfold drifting;
    cbn [fabs flt PyFloat_Q PyFloat_binary64];
    rewrite ?Qabs_Qopp, ?abs_opp; repeat split; apply orb_comm.
Qed.

(** X14.  Whatever the deadzone was, after the down key it is at most 0.5
    and after the up key at least 0.0; on the rationals and for all
    binary64 values, NaN and the infinities among them. *)
Theorem deadzone_clamp_any :
  (forall d : Q, increase d <= 0.5 /\ 0 <= decrease d)
  /\ (forall d : float,
        fle (increase d) (lit 0.5) = true
        /\ fle (lit 0.0) (decrease d) = true)
  /\ (forall (num : Type) (P : PyFloat num) connected (st : Engine num),
        handle_event connected (KEYDOWN K_DOWN) st
        = Ok (tt, with_deadzone (increase (deadzone st)) st)
        /\ handle_event connected (KEYDOWN K_UP) st
           = Ok (tt, with_deadzone (decrease (deadzone st)) st)).
Proof.
  split; [|split].
  - intros d. split.
    + destruct (Qlt_le_dec (d + 0.01) 0.5) as [Hs|Hc].
      * rewrite increase_step by assumption. lra.
      * rewrite increase_clamped by assumption. lra.
    + destruct (Qlt_le_dec 0 (d - 0.01)) as [Hs|Hc].
      * rewrite decrease_step by assumption. lra.
      * rewrite decrease_clamped by assumption. lra.
  - intros d. split.
    + unfold increase, py_min. cbn [fadd flt fle PyFloat_binary64].
      generalize (PrimFloat.add d (lit 0.01)). intros b.
      destruct (PrimFloat.ltb b (lit 0.5)) eqn:Hb.
      * now apply ltb_leb.
      * vm_compute. reflexivity.
    + unfold decrease, py_max. cbn [fsub flt fle PyFloat_binary64].
      generalize (PrimFloat.sub d (lit 0.01)). intros b.
      destruct (PrimFloat.ltb (lit 0.0) b) eqn:Hb.
      * now apply ltb_leb.
      * vm_compute. reflexivity.
  - intros num P connected st. split; reflexivity.
Qed.

(** ** [norm_trigger] in binary64 *)

(** X15.  For all binary64 values: an input of [-0.2, 1] is returned as
    it is; an input that fails [v >= -1.0] or [v <= 1.0], as NaN and the
    infinities do, gives 0.0; and on every input that is not below -0.2 a
    second normalisation changes nothing. *)
Theorem norm_trigger_binary64 (v : float) :
  (fle (lit (-0.2)) v = true -> fle v (lit 1.0) = true ->
   norm_trigger v = v)
  /\ (fle (lit (-1.0)) v = false \/ fle v (lit 1.0) = false ->
      norm_trigger v = lit 0.0)
  /\ (flt v (lit (-0.2)) = false ->
      norm_trigger (norm_trigger v) = norm_trigger v).
Proof.
  assert (Hout : fle (lit (-1.0)) v = false \/ fle v (lit 1.0) = false ->
                 norm_trigger v = lit 0.0).
  { unfold norm_trigger. intros [Hlo|Hhi].
    - now rewrite Hlo.
    - rewrite Hhi. now rewrite andb_false_r. }
  assert (Hin : fle (lit (-0.2)) v = true -> fle v (lit 1.0) = true ->
                norm_trigger v = v).
  { intros Hlo Hhi.
    change (PrimFloat.leb (lit (-0.2)) v = true) in Hlo.
    assert (Hc : PrimFloat.leb (lit (-1.0)) (lit (-0.2)) = true)
      by (vm_compute; reflexivity).
    pose proof (leb_trans (lit (-1.0)) (lit (-0.2)) v Hc Hlo) as Hm1.
    pose proof (leb_not_ltb (lit (-0.2)) v Hlo) as Hns.
    unfold norm_trigger. rewrite Hhi.
    change (fle (lit (-1.0)) v) with (PrimFloat.leb (lit (-1.0)) v).
    change (flt v (lit (-0.2))) with (PrimFloat.ltb v (lit (-0.2))).
    now rewrite Hm1, Hns. }
  repeat apply conj; [exact Hin|exact Hout|].
  intros Hns. unfold norm_trigger at 2 3.
  destruct (fle (lit (-1.0)) v && fle v (lit 1.0)) eqn:Hg.
  - rewrite Hns. unfold norm_trigger. now rewrite Hg, Hns.
  - vm_compute. reflexivity.
Qed.

Lemma norm_trigger_binary64_witness :
  norm_trigger (lit 0.7 : float) = lit 0.7
  /\ norm_trigger PrimFloat.nan = lit 0.0
  /\ norm_trigger PrimFloat.infinity = lit 0.0
  /\ norm_trigger (norm_trigger (lit (-0.1) : float))
     = norm_trigger (lit (-0.1)).
Proof.
  repeat apply conj.
  - apply (proj1 (norm_trigger_binary64 (lit 0.7))); reflexivity.
  - apply (proj1 (proj2 (norm_trigger_binary64 PrimFloat.nan))).
    left. reflexivity.
  - apply (proj1 (proj2 (norm_trigger_binary64 PrimFloat.infinity))).
    right. reflexivity.
  - apply (proj2 (proj2 (norm_trigger_binary64 (lit (-0.1))))).
    reflexivity.
Defined.

(** ** The text column *)

Lemma place_uniform (items : list HudItem) (step y : Z) (k : nat)
    (d : HudItem * Z) :
  (k < length items)%nat ->
  nth k (place (map (fun item => (item, step)) items) y) d
  = (nth k items (fst d), (y + step * Z.of_nat k)%Z).
Proof.
  revert y k. induction items as [|item items IH]; intros y k Hk.
  - simpl in Hk. lia.
  - destruct k as [|k].
    + cbn. f_equal. lia.
    + cbn [map place nth]. rewrite IH by (simpl in Hk; lia).
      f_equal. lia.
Qed.

Lemma length_place (items : list (HudItem * Z)) (y : Z) :
  length (place items y) = length items.
Proof.
  revert y. induction items as [|[item step] items IH]; intros y;
    [reflexivity|].
  cbn. now rewrite IH.
Qed.

(** X17.  The text column has five fixed lines, at 150, 174, 198, 222 and
    246.  With the debug flag set the counts follow at 266 and then, 18
    apart from 288 on, one line for each axis, each of the first sixteen
    buttons and each hat, in that order: a button from the seventeenth on
    is never listed, and a line starts inside the window exactly when it
    is among the first eleven of them.  With the flag clear nothing
    follows the five. *)
Theorem hud_layout {A B C : Type} (axes : list A) (buttons : list B)
    (hats : list C) :
  let items := debug_items axes buttons hats in
  let lines := hud_lines true axes buttons hats in
  hud_lines false axes buttons hats
  = [(LeftStickText, 150); (RightStickText, 174); (DeadzoneText, 198);
     (VibrationText, 222); (DebugHintText, 246)]%Z
  /\ firstn 6 lines
     = [(LeftStickText, 150); (RightStickText, 174); (DeadzoneText, 198);
        (VibrationText, 222); (DebugHintText, 246); (CountsText, 266)]%Z
  /\ length items
     = (length axes + Nat.min 16 (length buttons) + length hats)%nat
  /\ length lines = (6 + length items)%nat
  /\ (forall k, (k < length items)%nat ->
        nth (6 + k) lines (CountsText, 0%Z)
        = (nth k items CountsText, (288 + 18 * Z.of_nat k)%Z)
        /\ ((288 + 18 * Z.of_nat k < WINDOW_HEIGHT)%Z <-> (k < 11)%nat))
  /\ (forall i, In (ButtonText i) items ->
        (i < 16)%nat /\ (i < length buttons)%nat).
Proof.
  intros items lines. repeat apply conj.
  - reflexivity.
  - reflexivity.
  - unfold items, debug_items.
    rewrite !length_app, !length_map, !length_seq, length_firstn.
    apply Nat.add_assoc.
  - unfold lines, hud_lines. rewrite length_place, length_app.
    cbn [length]. now rewrite length_map.
  - intros k Hk. split.
    + unfold lines, hud_lines. cbn [app place Nat.add nth].
      rewrite (place_uniform items 18 _ k (CountsText, 0%Z) Hk).
      cbn [fst]. f_equal.
    + unfold WINDOW_HEIGHT. lia.
  - intros i Hi. unfold items, debug_items in Hi.
    rewrite !in_app_iff, !in_map_iff in Hi.
    destruct Hi as [(k & Hk & _)|[(k & Hk & Hin)|(k & Hk & _)]];
      try discriminate Hk.
    injection Hk as ->. apply in_seq in Hin.
    rewrite length_firstn in Hin. lia.
Qed.

Lemma hud_layout_witness :
  nth 17 (hud_lines true (dev_axes (scenario_device (num:=Q)))
            (dev_buttons (scenario_device (num:=Q)))
            (dev_hats (scenario_device (num:=Q))))
    (CountsText, 0%Z)
  = (ButtonText 5, 486%Z)
  /\ ~ (486 < WINDOW_HEIGHT)%Z.
Proof.
  destruct (hud_layout (dev_axes (scenario_device (num:=Q)))
              (dev_buttons (scenario_device (num:=Q)))
              (dev_hats (scenario_device (num:=Q))))
    as (_ & _ & _ & _ & Hk & _).
  assert (Hlt : (11 < length (debug_items
                               (dev_axes (scenario_device (num:=Q)))
                               (dev_buttons (scenario_device (num:=Q)))
                               (dev_hats (scenario_device (num:=Q)))))%nat)
    by (simpl; lia).
  destruct (Hk 11%nat Hlt) as (Hline & Hwin).
  split.
  - exact Hline.
  - intros Hin. apply (proj1 Hwin) in Hin. lia.
Defined.

(** ** The deadzone step in binary64 *)

Lemma mem_float_In (x : float) (l : list float) :
  mem_float x l = true -> In x l.
Proof.
  unfold mem_float. rewrite existsb_exists. intros (y & Hy & Heq).
  apply FloatAxioms.Leibniz.eqb_spec in Heq. now subst.
Qed.

#[global] Opaque reachable_deadzones.

Lemma reachable_start : In (DEADZONE : float) reachable_deadzones.
Proof. apply mem_float_In. vm_compute. reflexivity. Qed.

Lemma reachable_closed (d : float) :
  In d reachable_deadzones ->
  In (increase d) reachable_deadzones
  /\ In (decrease d) reachable_deadzones.
Proof.
  assert (Hall : forallb
                   (fun d => mem_float (increase d) reachable_deadzones
                             && mem_float (decrease d) reachable_deadzones)
                   reachable_deadzones = true)
    by (vm_compute; reflexivity).
  intros Hd. rewrite forallb_forall in Hall.
  apply Hall in Hd. apply andb_prop in Hd as [Hi Hdec].
  split; now apply mem_float_In.
Qed.

Lemma handle_events_reachable (connected : list (Device float))
    (evs : list Event) (st st' : Engine float) :
  In (deadzone st) reachable_deadzones ->
  handle_events connected evs st = Ok (tt, st') ->
  In (deadzone st') reachable_deadzones.
Proof.
  revert st. induction evs as [|ev evs IH]; intros st Hd Hrun.
  - cbn [handle_events] in Hrun. unfold ret in Hrun.
    injection Hrun as <-. exact Hd.
  - cbn [handle_events] in Hrun. unfold bind in Hrun.
    rewrite handle_event_Ok in Hrun. apply (IH _) in Hrun; [exact Hrun|].
    destruct (reachable_closed _ Hd) as [Hi Hdec].
    destruct ev as [| | |key|];
      [exact Hd | exact Hd | exact Hd | | exact Hd].
    destruct key; [exact Hd | exact Hdec | exact Hi | exact Hd | exact Hd].
Qed.

Lemma step_within_spec (a b : float) (c : Q) :
  step_within a b c = true ->
  exists qa qb,
    float_value a = Some qa /\ float_value b = Some qb
    /\ Qabs (qb - qa - c) <= 1 # 2 ^ 55.
Proof.
  unfold step_within.
  destruct (float_value a) as [qa|]; [|discriminate].
  destruct (float_value b) as [qb|]; [|discriminate].
  intros Hle. apply Qle_bool_iff in Hle. now exists qa, qb.
Qed.

Lemma reachable_range (d : float) :
  In d reachable_deadzones ->
  fle (lit 0.0) d = true /\ fle d (lit 0.5) = true.
Proof.
  assert (Hall : forallb (fun d => fle (lit 0.0) d && fle d (lit 0.5))
                   reachable_deadzones = true)
    by (vm_compute; reflexivity).
  intros Hd. rewrite forallb_forall in Hall.
  apply Hall in Hd. now apply andb_prop in Hd.
Qed.

Lemma reachable_steps (d : float) :
  In d reachable_deadzones ->
  (increase d = lit 0.5 \/ step_within d (increase d) 0.01 = true)
  /\ (decrease d = lit 0.0 \/ step_within (decrease d) d 0.01 = true).
Proof.
  assert (Hall : forallb
                   (fun d =>
                      (PrimFloat.Leibniz.eqb (increase d) (lit 0.5)
                       || step_within d (increase d) 0.01)
                      && (PrimFloat.Leibniz.eqb (decrease d) (lit 0.0)
                          || step_within (decrease d) d 0.01))
                   reachable_deadzones = true)
    by (vm_compute; reflexivity).
  intros Hd. rewrite forallb_forall in Hall.
  apply Hall in Hd. apply andb_prop in Hd as [Hi Hdec].
  apply orb_prop in Hi, Hdec. split.
  - destruct Hi as [Hi|Hi]; [left|now right].
    now apply FloatAxioms.Leibniz.eqb_spec.
  - destruct Hdec as [Hdec|Hdec]; [left|now right].
    now apply FloatAxioms.Leibniz.eqb_spec.
Qed.

Lemma increase_le_half (d : float) : fle (increase d) (lit 0.5) = true.
Proof.
  unfold increase, py_min. cbn [fadd flt fle PyFloat_binary64].
  generalize (PrimFloat.add d (lit 0.01)). intros b.
  destruct (PrimFloat.ltb b (lit 0.5)) eqn:Hb.
  - now apply ltb_leb.
  - vm_compute. reflexivity.
Qed.

Lemma decrease_ge_zero (d : float) : fle (lit 0.0) (decrease d) = true.
Proof.
  unfold decrease, py_max. cbn [fsub flt fle PyFloat_binary64].
  generalize (PrimFloat.sub d (lit 0.01)). intros b.
  destruct (PrimFloat.ltb (lit 0.0) b) eqn:Hb.
  - now apply ltb_leb.
  - vm_compute. reflexivity.
Qed.

(** C5, as the code has it.  The increase is [min(0.5, d + 0.01)] and the
    decrease [max(0.0, d - 0.01)], the sum and the difference those of the
    arithmetic in use: one rounded operation in binary64.  The increase is
    never above 0.5 and the decrease never below 0.0, whatever binary64
    value they start from; a rational deadzone of [0, 0.5] stays in
    [0, 0.5] under both.  Every binary64 deadzone that events lead to from
    the 0.06 of line 19 lies in [0.0, 0.5], and from it the increase gives
    0.5 or a value within 2^-55 of 0.01 above and the decrease gives 0.0
    or a value within 2^-55 of 0.01 below.  One or more increases from
    0.49 give 0.5 and one or more decreases from 0.01 give 0.0, on the
    rationals and in binary64; an event changes the deadzone only as one
    of these two, and a poll does not change it. *)
Theorem deadzone_adjustment :
  (forall (num : Type) (P : PyFloat num) (d : num),
     (flt (fadd d (lit 0.01)) (lit 0.5) = true ->
      increase d = fadd d (lit 0.01))
     /\ (flt (fadd d (lit 0.01)) (lit 0.5) = false ->
         increase d = lit 0.5)
     /\ (flt (lit 0.0) (fsub d (lit 0.01)) = true ->
         decrease d = fsub d (lit 0.01))
     /\ (flt (lit 0.0) (fsub d (lit 0.01)) = false ->
         decrease d = lit 0.0))
  /\ (forall d : float,
        fle (increase d) (lit 0.5) = true
        /\ fle (lit 0.0) (decrease d) = true)
  /\ (forall d : Q, 0 <= d <= 0.5 ->
        0 <= increase d <= 0.5 /\ 0 <= decrease d <= 0.5)
  /\ (forall (connected : list (Device float)) (evs : list Event)
             (j : option (Device float)) (st' : Engine float),
        handle_events connected evs (initial j) = Ok (tt, st') ->
        In (deadzone st') reachable_deadzones)
  /\ (forall d : float, In d reachable_deadzones ->
        fle (lit 0.0) d = true /\ fle d (lit 0.5) = true
        /\ (increase d = lit 0.5
            \/ exists q q',
                 float_value d = Some q
                 /\ float_value (increase d) = Some q'
                 /\ Qabs (q' - q - 0.01) <= 1 # 2 ^ 55)
        /\ (decrease d = lit 0.0
            \/ exists q q',
                 float_value (decrease d) = Some q'
                 /\ float_value d = Some q
                 /\ Qabs (q - q' - 0.01) <= 1 # 2 ^ 55))
  /\ (forall n, Nat.iter (S n) increase (0.49 : Q) = 0.5)
  /\ (forall n, Nat.iter (S n) decrease (0.01 : Q) = 0.0)
  /\ (forall n, Nat.iter (S n) increase (lit 0.49 : float) = lit 0.5)
  /\ (forall n, Nat.iter (S n) decrease (lit 0.01 : float) = lit 0.0)
  /\ (forall (num : Type) (P : PyFloat num)
             (connected : list (Device num)) (ev : Event)
             (st : Engine num),
        exists st',
          handle_event connected ev st = Ok (tt, st')
          /\ deadzone st' =
             match ev with
             | KEYDOWN K_UP => decrease (deadzone st)
             | KEYDOWN K_DOWN => increase (deadzone st)
             | _ => deadzone st
             end)
  /\ (forall (num : Type) (P : PyFloat num) (st : Engine num),
        exists scr, poll st = Ok (scr, st)).
Proof.
  split; [|split; [|split; [|split; [|split]]]].
  - intros num P d. unfold increase, decrease, py_min, py_max.
    repeat split; intros Hc; now rewrite Hc.
  - intros d. split; [apply increase_le_half|apply decrease_ge_zero].
  - intros d [Hlo Hhi]. split.
    + now apply increase_range.
    + now apply decrease_range.
  - intros connected evs j st'.
    apply handle_events_reachable. apply reachable_start.
  - intros d Hd. destruct (reachable_range d Hd) as [Hlo Hhi].
    destruct (reachable_steps d Hd) as [Hi Hdec].
    split; [exact Hlo|]. split; [exact Hhi|]. split.
    + destruct Hi as [Hi|Hi]; [left; exact Hi|right].
      destruct (step_within_spec _ _ _ Hi) as (q & q' & Hq & Hq' & Hle).
      exists q, q'. exact (conj Hq (conj Hq' Hle)).
    + destruct Hdec as [Hdec|Hdec]; [left; exact Hdec|right].
      destruct (step_within_spec _ _ _ Hdec) as (q' & q & Hq' & Hq & Hle).
      exists q, q'. exact (conj Hq' (conj Hq Hle)).
  - repeat apply conj.
    + apply iter_saturated; reflexivity.
    + apply iter_saturated; reflexivity.
    + apply iter_saturated; vm_compute; reflexivity.
    + apply iter_saturated; vm_compute; reflexivity.
    + intros num P connected ev st. eexists.
      split; [apply handle_event_Ok|].
      destruct ev as [| | |[]|]; reflexivity.
    + intros num P. exact poll_Ok.
Qed.

Lemma deadzone_adjustment_witness :
  increase (lit 0.06 : float) = fadd (lit 0.06) (lit 0.01)
  /\ In (deadzone (with_deadzone (decrease (increase (lit 0.06 : float)))
                     (initial None)))
       reachable_deadzones
  /\ (0 <= increase (0.06 : Q) <= 0.5 /\ 0 <= decrease (0.06 : Q) <= 0.5)
  /\ fle (increase (increase (lit 0.06 : float))) (lit 0.5) = true.
Proof.
  destruct deadzone_adjustment
    as (Hstep & _ & HQ & Hreach & Hfacts & _).
  assert (H06 : 0 <= 0.06 <= 0.5) by (split; unfold Qle; simpl; lia).
  split; [|split; [|split]].
  - apply (proj1 (Hstep float PyFloat_binary64 (lit 0.06))).
    vm_compute. reflexivity.
  - apply (Hreach [] [KEYDOWN K_DOWN; KEYDOWN K_UP] None).
    vm_compute. reflexivity.
  - exact (HQ 0.06 H06).
  - refine (proj1 (proj2 (Hfacts (increase (increase (lit 0.06))) _))).
    apply mem_float_In. vm_compute. reflexivity.
Defined.

(** C5 as stated fails in binary64: the increase from 0.06 is not 0.07,
    what it adds is not 0.01, as floats and as the rationals they stand
    for, and the decrease after it does not give 0.06 back. *)
Lemma deadzone_step_rounded :
  PrimFloat.eqb (increase (lit 0.06)) (lit 0.07) = false
  /\ PrimFloat.eqb (fsub (increase (lit 0.06)) (lit 0.06)) (lit 0.01)
     = false
  /\ PrimFloat.eqb (decrease (increase (lit 0.06))) (lit 0.06) = false
  /\ (exists q q',
        float_value (lit 0.06) = Some q
        /\ float_value (increase (lit 0.06)) = Some q'
        /\ ~ q' - q == 0.01
        /\ ~ q' == 0.07).
Proof.
  split; [vm_compute; reflexivity|].
  split; [vm_compute; reflexivity|].
  split; [vm_compute; reflexivity|].
  eexists. eexists. split; [vm_compute; reflexivity|].
  split; [vm_compute; reflexivity|].
  split; vm_compute; discriminate.
Qed.
